(** * Food App API: the order-total flow of [main.py] and the schemas of
    [schemas.py], embedded in Rocq.

    Python values are an inductive type, [float] is the kernel's binary64,
    documents and request bodies are finite maps from field names to values,
    and every handler is a function from the store to a result and a store. *)

From Stdlib Require Import ZArith Floats.
From stdpp Require Import gmap strings list pretty.

Set Warnings "-register-all,-inexact-float".

(** ** Python values *)

(** The values that travel through request bodies and stored documents. *)
Inductive value :=
| VNone
| VBool (b : bool)
| VInt (z : Z)
| VFloat (f : float)
| VStr (s : string)
| VObjectId (hex : string)
| VList (l : list value)
| VDict (d : gmap string value).

(** What a request can raise: [RequestValidationError] when the body fails
    its schema, before the handler runs; the others in the handler. *)
Inductive exn :=
| HTTPException (status_code : Z) (detail : string)
| RequestValidationError
| TypeError
| ValueError
| OverflowError.

Inductive result (A : Type) :=
| Ok (a : A)
| Raise (e : exn).
Arguments Ok {A} a.
Arguments Raise {A} e.

#[global] Instance result_ret : MRet result := fun A a => Ok a.

#[global] Instance result_bind : MBind result := fun A B k r =>
  match r with
  | Ok a => k a
  | Raise e => Raise e
  end.

Definition is_ok {A} (r : result A) : bool :=
  match r with Ok _ => true | Raise _ => false end.

(** The status of the answer when a handler raises [e]: the code of an
    [HTTPException], 500 for any other exception of the handler. A validation
    error is raised before the handler runs, and the status of its answer
    depends on the refused input as well (422, or 500 when the input cannot be
    rendered in the answer); it is not given here. *)
Definition http_status (e : exn) : option Z :=
  match e with
  | HTTPException c _ => Some c
  | RequestValidationError => None
  | _ => Some 500%Z
  end.

(** ** Floats *)

(** [float(n)] for an int: the nearest double, ties to even; an int that
    rounds past the largest double raises OverflowError. *)
Definition float_of_int (z : Z) : option float :=
  let f := SF2Prim (binary_normalize prec emax z 0 false) in
  if is_finite f then Some f else None.

(** The integer nearest to [n / d] for [d > 0], ties to the even one. *)
Definition round_half_even (n d : Z) : Z :=
  let q := (n / d)%Z in
  match (2 * (n mod d) ?= d)%Z with
  | Lt => q
  | Gt => (q + 1)%Z
  | Eq => if Z.even q then q else (q + 1)%Z
  end.

(** The double nearest to [n / 100], with the sign [s]. *)
Definition hundredths (s : bool) (n : Z) : float :=
  match n with
  | Zpos p =>
      SF2Prim (SFdiv prec emax (S754_finite s p 0) (S754_finite false 100 0))
  | _ => SF2Prim (S754_zero s)
  end.

(** [100 * |x|] for a finite nonzero [x = (-1)^s * m * 2^e], rounded to an
    integer by [rnd]. *)
Definition scaled_hundred (rnd : Z -> Z -> Z) (m : positive) (e : Z) : Z :=
  match e with
  | Zneg k => rnd (Zpos m * 100)%Z (2 ^ Zpos k)%Z
  | _ => (Zpos m * 100 * 2 ^ e)%Z
  end.

(** [round(x, 2)] on a float: the exact binary value of [x] is rounded to
    the nearest multiple of 0.01, an exact tie goes to the even hundredth,
    and the decimal result is read back as the nearest double. Zeros,
    infinities and nan round to themselves. *)
Definition py_round2 (x : float) : float :=
  match Prim2SF x with
  | S754_finite s m e => hundredths s (scaled_hundred round_half_even m e)
  | _ => x
  end.

(** ** The schemas of [schemas.py] *)

Module MenuItem.
Record t := mk {
    name : string;
    description : option string;
    price : float;
    category : string;
    image_url : option string;
    is_available : bool
}.
End MenuItem.

Module OrderItem.
Record t := mk {
    menu_item_id : string;
    quantity : Z
}.
End OrderItem.

Module Order.
Record t := mk {
    customer_name : string;
    customer_phone : string;
    customer_address : string;
    items : list OrderItem.t;
    notes : option string;
    status : string
}.
End Order.

(** [OrderResponse] of [main.py]. *)
Module OrderResponse.
Record t := mk {
    id : string;
    total : float;
    status : string
}.
End OrderResponse.

Module User.
Record t := mk {
    name : string;
    email : string;
    address : string;
    age : option Z;
    is_active : bool
}.
End User.

Module Product.
Record t := mk {
    title : string;
    description : option string;
    price : float;
    category : string;
    in_stock : bool
}.
End Product.

(** ** The document store *)

(** The store's native identity; [oid_str] is what [str] prints for it. *)
Record ObjectId := mkObjectId { oid_str : string }.

(** A stored document as [get_documents] returns it: the dict
    [{"_id": _id, **fields}]. *)
Record document := Document {
  _id : ObjectId;
  fields : gmap string value
}.

(** Modelled from the spec: the document store adapter ([database.py], the
    module behind [db], [create_document] and [get_documents]) is not part of
    the sources. The spec gives its contract: named collections of documents,
    [create(collection_name, document) -> identity] and
    [read_many(collection_name) -> sequence of documents each carrying a
    native identity]. A collection keeps its documents in insertion order and
    the identities come from a counter. *)
Record Store := mkStore {
  collections : gmap string (list document);
  next_oid : nat
}.

(** Modelled from the spec: [read_many] of the store adapter, without a
    limit. *)
Definition get_documents (collection_name : string) (db : Store) : list document :=
  default [] (collections db !! collection_name).

(** Modelled from the spec: [create] of the store adapter. The document gets a
    fresh identity, is appended to its collection, and the identity comes back
    as a string. *)
Definition create_document (collection_name : string) (data : gmap string value)
    (db : Store) : string * Store :=
  let oid := mkObjectId (pretty (next_oid db)) in
  (oid_str oid,
   mkStore
     (<[collection_name := get_documents collection_name db ++ [Document oid data]]>
        (collections db))
     (S (next_oid db))).

(** The store before anything was created. *)
Definition empty_db : Store := mkStore ∅ 0.

(** The identities of a document list, as [str] prints them. *)
Definition doc_ids (docs : list document) : list string :=
  (fun m => oid_str (_id m)) <$> docs.

(** The identities of a store come from its counter: no two documents of a
    collection share one, and each is the print of a number below
    [next_oid]. *)
Definition store_wf (db : Store) : Prop :=
  forall c docs, collections db !! c = Some docs ->
    NoDup (doc_ids docs) /\
    Forall (fun d => exists n, n < next_oid db /\ oid_str (_id d) = pretty n) docs.

(** ** [model_dump] *)

Definition dump_opt_str (o : option string) : value :=
  match o with
  | Some s => VStr s
  | None => VNone
  end.

Definition MenuItem_model_dump (m : MenuItem.t) : gmap string value :=
  {[ "name" := VStr (MenuItem.name m);
     "description" := dump_opt_str (MenuItem.description m);
     "price" := VFloat (MenuItem.price m);
     "category" := VStr (MenuItem.category m);
     "image_url" := dump_opt_str (MenuItem.image_url m);
     "is_available" := VBool (MenuItem.is_available m) ]}.

Definition OrderItem_model_dump (it : OrderItem.t) : gmap string value :=
  {[ "menu_item_id" := VStr (OrderItem.menu_item_id it);
     "quantity" := VInt (OrderItem.quantity it) ]}.

Definition Order_model_dump (o : Order.t) : gmap string value :=
  {[ "customer_name" := VStr (Order.customer_name o);
     "customer_phone" := VStr (Order.customer_phone o);
     "customer_address" := VStr (Order.customer_address o);
     "items" := VList ((fun it => VDict (OrderItem_model_dump it)) <$> Order.items o);
     "notes" := dump_opt_str (Order.notes o);
     "status" := VStr (Order.status o) ]}.

(** ** [serialize_doc] *)

(** [str(v)] where [v] is an ObjectId, [v] otherwise. *)
Definition stringify_oid (v : value) : value :=
  match v with
  | VObjectId h => VStr h
  | _ => v
  end.

(** [d = dict(doc)]; ["_id"] is popped and comes back under ["id"] as a
    string; every remaining ObjectId value is cast to a string. *)
Definition serialize_doc (doc : document) : gmap string value :=
  stringify_oid <$> <["id" := VStr (oid_str (_id doc))]> (fields doc).

(** ** [list_orders] *)

(** [GET /orders]. [limit] is the argument of the call: [None] when the call
    gives none, and the default 20 of the signature applies; [Some None]
    for [None] itself; [Some (Some n)] for the int [n]. [read_many] stands for
    [get_documents] called with its [limit] argument; the store adapter is not
    part of the sources, so the limited read is an argument of the handler. *)
Definition list_orders (read_many : string -> option Z -> Store -> list document)
    (limit : option (option Z)) (db : Store) : list (gmap string value) :=
  let limit := default (Some 20%Z) limit in
  serialize_doc <$> read_many "order" limit db.

(** Modelled from the spec: [read_many(collection_name, limit?)] of the store
    adapter reads the whole collection without a limit and up to [limit]
    documents, from the front, with a positive limit. *)
Definition reads_up_to_limit (read_many : string -> option Z -> Store -> list document)
    : Prop :=
  (forall c db, read_many c None db = get_documents c db) /\
  (forall c n db, (0 < n)%Z ->
     read_many c (Some n) db = take (Z.to_nat n) (get_documents c db)).

(** ** [test_database] *)

(** A byte that continues a UTF-8 character. *)
Definition is_continuation (c : Ascii.ascii) : bool :=
  (128 <=? Ascii.nat_of_ascii c) && (Ascii.nat_of_ascii c <? 192).

(** [s[:n]]: the first [n] characters of a [str], held here as its UTF-8
    bytes. *)
Fixpoint py_take (n : nat) (s : string) : string :=
  match s with
  | EmptyString => EmptyString
  | String c rest =>
      if is_continuation c then String c (py_take n rest)
      else match n with
           | 0 => EmptyString
           | S k => String c (py_take k rest)
           end
  end.

(** [len(s)] of a [str] held as its UTF-8 bytes. *)
Fixpoint py_len (s : string) : nat :=
  match s with
  | EmptyString => 0
  | String c rest => if is_continuation c then py_len rest else S (py_len rest)
  end.

(** How a call on the database handle ends: with a value, or with an
    exception whose [str] is [msg]. *)
Inductive outcome (A : Type) :=
| Returns (a : A)
| Throws (msg : string).
Arguments Returns {A} a.
Arguments Throws {A} msg.

(** What [test_database] observes of the global [db] when it is not None:
    [name_attr] is the [name] attribute ([Returns None] when there is none),
    [list_collection_names] the result of the call. *)
Record Database := mkDatabase {
  name_attr : outcome (option value);
  list_collection_names : outcome (list string)
}.

(** The truth value of [os.getenv(key)]. *)
Definition getenv_set (environ : gmap string string) (key : string) : bool :=
  match environ !! key with
  | Some s => bool_decide (s ≠ "")
  | None => false
  end.

(** [GET /test] *)
Definition test_database (db : option Database) (environ : gmap string string)
    : gmap string value :=
  let response : gmap string value :=
    {[ "backend" := VStr "✅ Running";
       "database" := VStr "❌ Not Available";
       "database_url" := VNone;
       "database_name" := VNone;
       "connection_status" := VStr "Not Connected";
       "collections" := VList [] ]} in
  let response :=
    match db with
    | Some d =>
        let response := <["database" := VStr "✅ Available"]> response in
        let response := <["database_url" := VStr "✅ Configured"]> response in
        match name_attr d with
        | Returns name =>
            let response :=
              <["database_name" := default (VStr "✅ Connected") name]> response in
            let response := <["connection_status" := VStr "Connected"]> response in
            match list_collection_names d with
            | Returns collections =>
                let response :=
                  <["collections" := VList (VStr <$> take 10 collections)]> response in
                <["database" := VStr "✅ Connected & Working"]> response
            | Throws msg =>
                <["database" := VStr ("⚠️  Connected but Error: " +:+ py_take 50 msg)]> response
            end
        | Throws msg => <["database" := VStr ("❌ Error: " +:+ py_take 50 msg)]> response
        end
    | None => <["database" := VStr "⚠️  Available but not initialized"]> response
    end in
  let response :=
    <["database_url" :=
        VStr (if getenv_set environ "DATABASE_URL" then "✅ Set" else "❌ Not Set")]>
      response in
  <["database_name" :=
      VStr (if getenv_set environ "DATABASE_NAME" then "✅ Set" else "❌ Not Set")]>
    response.

(** ** Conversions of the runtime that are taken as given *)

(** [float(s)] on a [str] (None: ValueError), and the conversions of
    pydantic's lax mode from a value that is not of the field's own type
    (None: the value is refused). The development holds for any of them. *)
Class Runtime := {
  float_of_str : string -> option float;
  lax_int : value -> option Z;
  lax_float : value -> option float;
  lax_bool : value -> option bool
}.

Definition of_option {A} (o : option A) (e : exn) : result A :=
  match o with
  | Some a => Ok a
  | None => Raise e
  end.

Section Api.
Context `{Runtime}.

(** [float(v)] *)
Definition py_float (v : value) : result float :=
  match v with
  | VFloat f => Ok f
  | VInt z => of_option (float_of_int z) OverflowError
  | VBool b => Ok (if b then 1%float else 0%float)
  | VStr s => of_option (float_of_str s) ValueError
  | _ => Raise TypeError
  end.

(** *** Validation of a request body against a schema *)

(** A field declared with [Field(...)]. *)
Definition required {A} (validate : value -> result A) (field : option value) : result A :=
  match field with
  | Some v => validate v
  | None => Raise RequestValidationError
  end.

(** A field declared with a default. *)
Definition with_default {A} (validate : value -> result A) (d : A)
    (field : option value) : result A :=
  match field with
  | Some v => validate v
  | None => Ok d
  end.

Definition validate_str (v : value) : result string :=
  match v with
  | VStr s => Ok s
  | _ => Raise RequestValidationError
  end.

Definition validate_optional_str (v : value) : result (option string) :=
  match v with
  | VNone => Ok None
  | VStr s => Ok (Some s)
  | _ => Raise RequestValidationError
  end.

Definition validate_int (v : value) : result Z :=
  match v with
  | VInt z => Ok z
  | _ => of_option (lax_int v) RequestValidationError
  end.

Definition validate_float (v : value) : result float :=
  match v with
  | VFloat f => Ok f
  | VInt z => of_option (float_of_int z) RequestValidationError
  | _ => of_option (lax_float v) RequestValidationError
  end.

Definition validate_bool (v : value) : result bool :=
  match v with
  | VBool b => Ok b
  | _ => of_option (lax_bool v) RequestValidationError
  end.

(** The constraint [ge=bound] on an int. *)
Definition ge_int (bound z : Z) : result Z :=
  if (bound <=? z)%Z then Ok z else Raise RequestValidationError.

(** The constraint [ge=bound] on a float. *)
Definition ge_float (bound f : float) : result float :=
  if (bound <=? f)%float then Ok f else Raise RequestValidationError.

Definition validate_MenuItem (body : gmap string value) : result MenuItem.t :=
  name ← required validate_str (body !! "name");
  description ← with_default validate_optional_str None (body !! "description");
  price ← required validate_float (body !! "price") ≫= ge_float 0;
  category ← required validate_str (body !! "category");
  image_url ← with_default validate_optional_str None (body !! "image_url");
  is_available ← with_default validate_bool true (body !! "is_available");
  mret (MenuItem.mk name description price category image_url is_available).

Definition validate_OrderItem (v : value) : result OrderItem.t :=
  match v with
  | VDict d =>
      menu_item_id ← required validate_str (d !! "menu_item_id");
      quantity ← required validate_int (d !! "quantity") ≫= ge_int 1;
      mret (OrderItem.mk menu_item_id quantity)
  | _ => Raise RequestValidationError
  end.

Fixpoint validate_each {A} (validate : value -> result A) (l : list value) : result (list A) :=
  match l with
  | [] => Ok []
  | v :: rest =>
      a ← validate v;
      more ← validate_each validate rest;
      mret (a :: more)
  end.

Definition validate_items (v : value) : result (list OrderItem.t) :=
  match v with
  | VList l => validate_each validate_OrderItem l
  | _ => Raise RequestValidationError
  end.

Definition validate_Order (body : gmap string value) : result Order.t :=
  customer_name ← required validate_str (body !! "customer_name");
  customer_phone ← required validate_str (body !! "customer_phone");
  customer_address ← required validate_str (body !! "customer_address");
  items ← required validate_items (body !! "items");
  notes ← with_default validate_optional_str None (body !! "notes");
  status ← with_default validate_str "pending" (body !! "status");
  mret (Order.mk customer_name customer_phone customer_address items notes status).

(** The constraint [le=bound] on an int. *)
Definition le_int (bound z : Z) : result Z :=
  if (z <=? bound)%Z then Ok z else Raise RequestValidationError.

(** [Optional[int]] with [ge=0, le=120]. *)
Definition validate_age (v : value) : result (option Z) :=
  match v with
  | VNone => Ok None
  | _ =>
      z ← validate_int v;
      z ← ge_int 0 z;
      z ← le_int 120 z;
      Ok (Some z)
  end.

Definition validate_User (body : gmap string value) : result User.t :=
  name ← required validate_str (body !! "name");
  email ← required validate_str (body !! "email");
  address ← required validate_str (body !! "address");
  age ← with_default validate_age None (body !! "age");
  is_active ← with_default validate_bool true (body !! "is_active");
  mret (User.mk name email address age is_active).

Definition validate_Product (body : gmap string value) : result Product.t :=
  title ← required validate_str (body !! "title");
  description ← with_default validate_optional_str None (body !! "description");
  price ← required validate_float (body !! "price") ≫= ge_float 0;
  category ← required validate_str (body !! "category");
  in_stock ← with_default validate_bool true (body !! "in_stock");
  mret (Product.mk title description price category in_stock).

(** *** The menu endpoints *)

Definition seed_items : list MenuItem.t :=
  [ MenuItem.mk "Margherita Pizza" (Some "Classic with tomatoes, mozzarella & basil")
      10.99 "Pizza"
      (Some "https://images.unsplash.com/photo-1548365328-9f547fb09530?q=80&w=1200&auto=format&fit=crop")
      true;
    MenuItem.mk "Spaghetti Carbonara" (Some "Creamy sauce with pancetta & parmesan")
      12.5 "Pasta"
      (Some "https://images.unsplash.com/photo-1523986371872-9d3ba2e2f642?q=80&w=1200&auto=format&fit=crop")
      true;
    MenuItem.mk "Caesar Salad" (Some "Romaine, croutons, parmesan & Caesar dressing")
      8.75 "Salad"
      (Some "https://images.unsplash.com/photo-1551892374-ecf8754cf8c0?q=80&w=1200&auto=format&fit=crop")
      true;
    MenuItem.mk "Iced Lemon Tea" (Some "Refreshing home-brewed lemon tea")
      3.5 "Drinks"
      (Some "https://images.unsplash.com/photo-1497534446932-c925b458314e?q=80&w=1200&auto=format&fit=crop")
      true ].

(** [for si in seed_items: create_document("menuitem", si)] *)
Fixpoint seed_loop (seeds : list MenuItem.t) (db : Store) : Store :=
  match seeds with
  | [] => db
  | si :: rest => seed_loop rest (create_document "menuitem" (MenuItem_model_dump si) db).2
  end.

(** [GET /menu] *)
Definition list_menu (db : Store) : list (gmap string value) * Store :=
  match get_documents "menuitem" db with
  | [] =>
      let db' := seed_loop seed_items db in
      (serialize_doc <$> get_documents "menuitem" db', db')
  | items => (serialize_doc <$> items, db)
  end.

(** The handler of [POST /menu], on a validated item. *)
Definition create_menu_item (item : MenuItem.t) (db : Store) : string * Store :=
  create_document "menuitem" (MenuItem_model_dump item) db.

(** [POST /menu]: the body is validated against [MenuItem] before the
    handler runs. *)
Definition post_menu (body : gmap string value) (db : Store) : result string * Store :=
  match validate_MenuItem body with
  | Raise e => (Raise e, db)
  | Ok item => let '(new_id, db') := create_menu_item item db in (Ok new_id, db')
  end.

(** *** The order endpoints *)

(** [for m in menu_docs: id_to_price[str(m.get("_id"))] = float(m.get("price", 0))] *)
Fixpoint price_loop (menu_docs : list document) (id_to_price : gmap string float)
    : result (gmap string float) :=
  match menu_docs with
  | [] => Ok id_to_price
  | m :: rest =>
      p ← py_float (default (VInt 0) (fields m !! "price"));
      price_loop rest (<[oid_str (_id m) := p]> id_to_price)
  end.

(** [for it in order.items: ...], from the running [total]. The product of a
    float and an int converts the int first. *)
Fixpoint total_loop (id_to_price : gmap string float) (order_items : list OrderItem.t)
    (total : float) : result float :=
  match order_items with
  | [] => Ok total
  | it :: rest =>
      match id_to_price !! OrderItem.menu_item_id it with
      | None =>
          Raise (HTTPException 400 ("Menu item not found: " +:+ OrderItem.menu_item_id it))
      | Some p =>
          q ← of_option (float_of_int (OrderItem.quantity it)) OverflowError;
          total_loop id_to_price rest (total + p * q)%float
      end
  end.

(** The handler of [POST /orders], on a validated order. *)
Definition create_order (order : Order.t) (db : Store) : result OrderResponse.t * Store :=
  let menu_docs := get_documents "menuitem" db in
  match price_loop menu_docs ∅ with
  | Raise e => (Raise e, db)
  | Ok id_to_price =>
      match total_loop id_to_price (Order.items order) 0%float with
      | Raise e => (Raise e, db)
      | Ok total =>
          let order_dict := <["total" := VFloat (py_round2 total)]> (Order_model_dump order) in
          let '(new_id, db') := create_document "order" order_dict db in
          (Ok (OrderResponse.mk new_id (py_round2 total) (Order.status order)), db')
      end
  end.

(** [POST /orders]: the body is validated against [Order] before the handler
    runs. *)
Definition post_orders (body : gmap string value) (db : Store)
    : result OrderResponse.t * Store :=
  match validate_Order body with
  | Raise e => (Raise e, db)
  | Ok order => create_order order db
  end.

(** ** The words of the specification *)

(** [float(m.get("price", 0))], the price [create_order] reads off a menu
    document. *)
Definition doc_price (m : document) : result float :=
  py_float (default (VInt 0) (fields m !! "price")).

(** The identities of the catalog, as strings. *)
Definition menu_ids (menu_docs : list document) : list string :=
  doc_ids menu_docs.

(** Every menu document carries a price that [float] accepts. *)
Definition menu_priced (menu_docs : list document) : Prop :=
  Forall (fun m => is_ok (doc_price m) = true) menu_docs.

(** The current price of the menu item that [menu_item_id] references: the
    price of the catalog's document with that identity. *)
Definition current_price (menu_docs : list document) (menu_item_id : string) : option float :=
  match find (fun m => bool_decide (oid_str (_id m) = menu_item_id)) menu_docs with
  | Some m =>
      match doc_price m with
      | Ok p => Some p
      | Raise _ => None
      end
  | None => None
  end.

(** Price times quantity of one order line. *)
Definition line_total (menu_docs : list document) (it : OrderItem.t) : option float :=
  p ← current_price menu_docs (OrderItem.menu_item_id it);
  q ← float_of_int (OrderItem.quantity it);
  Some (p * q)%float.

(** The sum of a list of floats, left to right from 0. *)
Definition float_sum (l : list float) : float :=
  foldl PrimFloat.add 0%float l.

(** [round(sum(price_i * quantity_i), 2)] over the lines of an order. *)
Definition spec_total (menu_docs : list document) (order_items : list OrderItem.t)
    : option float :=
  amounts ← mapM (line_total menu_docs) order_items;
  Some (py_round2 (float_sum amounts)).

(** The integer nearest to [n / d] for [d > 0], ties away from zero on the
    magnitude: half-up rounding. *)
Definition round_half_up (n d : Z) : Z :=
  let q := (n / d)%Z in
  match (2 * (n mod d) ?= d)%Z with
  | Lt => q
  | _ => (q + 1)%Z
  end.

(** Rounding to two decimal places, half-up. *)
Definition half_up_round2 (x : float) : float :=
  match Prim2SF x with
  | S754_finite s m e => hundredths s (scaled_hundred round_half_up m e)
  | _ => x
  end.

(** Price times quantity of one order line, over the price mapping. *)
Definition line_amount (id_to_price : gmap string float) (it : OrderItem.t) : option float :=
  p ← id_to_price !! OrderItem.menu_item_id it;
  q ← float_of_int (OrderItem.quantity it);
  Some (p * q)%float.

(** [n] is the integer nearest to [num / den], and on an exact tie the even
    one of the two. *)
Definition nearest_ties_even (num den n : Z) : Prop :=
  (Z.abs (2 * (num - n * den)) <= den)%Z /\
  (Z.abs (2 * (num - n * den)) = den -> Z.even n = true)%Z.

(** [100 * m * 2^e] as a fraction of integers. *)
Definition hundredfold_num (m : positive) (e : Z) : Z := (Zpos m * 100 * 2 ^ Z.max e 0)%Z.
Definition hundredfold_den (e : Z) : Z := (2 ^ Z.max (- e) 0)%Z.


(** A validator that can only raise the validation error. *)
Definition raises_validation {A} (r : result A) : Prop :=
  forall e, r = Raise e -> e = RequestValidationError.

(** Two request bodies that agree on every field but ["total"]. *)
Definition same_but_total (body1 body2 : gmap string value) : Prop :=
  forall k : string, k ≠ "total" -> body1 !! k = body2 !! k.

(** Every menu document holds a float price that is at least 0. *)
Definition menu_nonneg (menu_docs : list document) : Prop :=
  Forall (fun m => exists p, fields m !! "price" = Some (VFloat p) /\
                             (0 <=? p)%float = true) menu_docs.

(** No ObjectId among the values of a served document. *)
Definition no_oid (d : gmap string value) : Prop :=
  forall k v, d !! k = Some v -> forall h, v ≠ VObjectId h.

(** The stores that the endpoints build, from the empty one. *)
Inductive reachable : Store -> Prop :=
| reachable_empty : reachable empty_db
| reachable_list_menu db : reachable db -> reachable (list_menu db).2
| reachable_post_menu body db : reachable db -> reachable (post_menu body db).2
| reachable_post_orders body db : reachable db -> reachable (post_orders body db).2.

End Api.

(** ** Concrete data for the examples *)

(** A runtime with no coercion: only values of a field's own type pass. *)
Definition no_coercion : Runtime :=
  Build_Runtime (fun _ => None) (fun _ => None) (fun _ => None) (fun _ => None).

(** The store after the first [GET /menu]: the four seeds, with the
    identities "0" to "3". *)
Definition seeded_db : Store := (list_menu empty_db).2.

(** An order of one customer, for the given items. *)
Definition customer (order_items : list OrderItem.t) : Order.t :=
  Order.mk "Ada" "555-0100" "1 Main Street" order_items None "pending".

(** The scenario of the spec: two pizzas and one tea from the seeded menu. *)
Definition two_pizzas_one_tea : Order.t :=
  customer [OrderItem.mk "0" 2; OrderItem.mk "3" 1].

(** One pizza and a reference that the menu does not hold. *)
Definition pizza_then_unknown : Order.t :=
  customer [OrderItem.mk "0" 1; OrderItem.mk "unknown-id" 1].

(** A quantity that no double can hold: 2^1024. *)
Definition huge_quantity : Order.t :=
  customer [OrderItem.mk "0" (2 ^ 1024)].

Definition huge_then_unknown : Order.t :=
  customer [OrderItem.mk "0" (2 ^ 1024); OrderItem.mk "unknown-id" 1].

(** A menu with one item, priced 0.125, under the identity "0". *)
Definition eighth_body : gmap string value :=
  {[ "name" := VStr "Espresso"; "category" := VStr "Drinks"; "price" := VFloat 0.125 ]}.

Definition eighth_db : Store := (@post_menu no_coercion eighth_body empty_db).2.

Definition one_espresso : Order.t := customer [OrderItem.mk "0" 1].







(** An order body with every required field, and one with a ["total"] of
    the caller's on top. *)
Definition tea_body : gmap string value :=
  {[ "customer_name" := VStr "Ada"; "customer_phone" := VStr "555-0100";
     "customer_address" := VStr "1 Main Street";
     "items" := VList [VDict {[ "menu_item_id" := VStr "3"; "quantity" := VInt 1 ]}] ]}.

Definition tea_body_with_total : gmap string value :=
  <["total" := VFloat 0.01]> tea_body.

(** A menu whose only document has no price. *)
Definition water : document :=
  Document (mkObjectId "0") {[ "name" := VStr "Water"; "category" := VStr "Drinks" ]}.

Definition priceless_db : Store :=
  mkStore {[ "menuitem" := [water] ]} 1.

(** A limited read for the examples: the front of the collection for a
    positive limit, the whole collection otherwise. *)
Definition read_front (c : string) (limit : option Z) (db : Store) : list document :=
  match limit with
  | Some n => if (0 <? n)%Z then take (Z.to_nat n) (get_documents c db)
              else get_documents c db
  | None => get_documents c db
  end.

(** A database handle whose [list_collection_names] answers twelve names. *)
Definition twelve_collections : Database :=
  mkDatabase (Returns (Some (VStr "food")))
    (Returns ["a"; "b"; "c"; "d"; "e"; "f"; "g"; "h"; "i"; "j"; "k"; "l"]).

(** A user body with every required field. *)
Definition ada_body : gmap string value :=
  {[ "name" := VStr "Ada"; "email" := VStr "ada@example.org";
     "address" := VStr "1 Main Street" ]}.

(** A product body with every required field. *)
Definition soap_body : gmap string value :=
  {[ "title" := VStr "Soap"; "price" := VFloat 2.5; "category" := VStr "Home" ]}.

(** Two menu documents that carry the same identity, with the prices 3.5
    and 4.0. *)
Definition tea_then : document := Document (mkObjectId "7") {[ "price" := VFloat 3.5 ]}.
Definition tea_now : document := Document (mkObjectId "7") {[ "price" := VFloat 4 ]}.

(** Two price mappings that differ on the identity "1" only. *)
Definition prices_a : gmap string float := {[ "0" := 10.99%float; "1" := 12.5%float ]}.
Definition prices_b : gmap string float := {[ "0" := 10.99%float; "1" := 99%float ]}.

(** ** Properties *)

Section Properties.
Context `{Runtime}.

(** *** The store *)

Lemma get_create_same collection_name data db :
  get_documents collection_name (create_document collection_name data db).2 =
  get_documents collection_name db ++ [Document (mkObjectId (pretty (next_oid db))) data].
Proof.
  unfold get_documents at 1. cbn [create_document snd collections].
  by rewrite lookup_insert_eq.
Qed.

Lemma get_create_other c1 c2 data db :
  c1 ≠ c2 ->
  get_documents c1 (create_document c2 data db).2 = get_documents c1 db.
Proof.
  intros Hne. unfold get_documents. cbn [create_document snd collections].
  by rewrite lookup_insert_ne.
Qed.

Lemma create_document_id collection_name data db :
  (create_document collection_name data db).1 = pretty (next_oid db).
Proof. reflexivity. Qed.

Lemma get_documents_wf c db :
  store_wf db ->
  NoDup (doc_ids (get_documents c db)) /\
  Forall (fun d => exists n, n < next_oid db /\ oid_str (_id d) = pretty n)
    (get_documents c db).
Proof.
  intros Hwf. unfold get_documents. destruct (collections db !! c) as [docs|] eqn:Hc.
  - by apply (Hwf c).
  - split; [apply NoDup_nil_2 | apply Forall_nil_2].
Qed.

Lemma store_wf_empty : store_wf empty_db.
Proof. intros c docs Hc. cbn in Hc. by rewrite lookup_empty in Hc. Qed.

(** [create_document] hands out an identity that the store does not hold. *)
Lemma create_document_wf c data db :
  store_wf db -> store_wf (create_document c data db).2.
Proof.
  intros Hwf c' docs Hc. cbn [create_document snd collections next_oid] in *.
  assert (Hweak : forall l,
    Forall (fun d => exists n, n < next_oid db /\ oid_str (_id d) = pretty n) l ->
    Forall (fun d => exists n, n < S (next_oid db) /\ oid_str (_id d) = pretty n) l).
  { intros l Hl. eapply Forall_impl; [exact Hl|].
    intros d (n & Hn & Hd). exists n. split; [lia | done]. }
  destruct (decide (c = c')) as [<-|Hne].
  - rewrite lookup_insert_eq in Hc. injection Hc as <-.
    destruct (get_documents_wf c db Hwf) as [Hnd Hall]. split.
    + unfold doc_ids. rewrite fmap_app. apply NoDup_app. split; [done|]. split.
      * intros id Hid Hnew. cbn in Hnew. apply list_elem_of_singleton in Hnew as ->.
        apply list_elem_of_fmap in Hid as (d & Hd & Hin).
        rewrite Forall_forall in Hall. destruct (Hall d Hin) as (n & Hn & Hdn).
        rewrite Hdn in Hd. apply (inj pretty) in Hd. lia.
      * apply NoDup_singleton.
    + apply Forall_app. split; [by apply Hweak|].
      apply Forall_singleton. exists (next_oid db). split; [lia | done].
  - rewrite lookup_insert_ne in Hc by done. destruct (Hwf c' docs Hc) as [Hnd Hall].
    split; [done | by apply Hweak].
Qed.

(** *** The price mapping *)

Lemma price_loop_cons m rest acc :
  price_loop (m :: rest) acc =
  match doc_price m with
  | Ok p => price_loop rest (<[oid_str (_id m) := p]> acc)
  | Raise e => Raise e
  end.
Proof. reflexivity. Qed.

Lemma price_loop_priced menu_docs : forall acc,
  menu_priced menu_docs -> exists prices, price_loop menu_docs acc = Ok prices.
Proof.
  induction menu_docs as [|m rest IH]; intros acc Hp.
  - by exists acc.
  - apply Forall_cons in Hp as [Hm Hrest]. rewrite price_loop_cons.
    destruct (doc_price m) as [p|e]; [|discriminate Hm].
    by apply IH.
Qed.

Lemma price_loop_ok_priced menu_docs : forall acc prices,
  price_loop menu_docs acc = Ok prices -> menu_priced menu_docs.
Proof.
  induction menu_docs as [|m rest IH]; intros acc prices Hl.
  - constructor.
  - rewrite price_loop_cons in Hl. destruct (doc_price m) as [p|e] eqn:Hm; [|discriminate].
    constructor; [by rewrite Hm | by eapply IH].
Qed.

(** The mapping is defined exactly on the identities of the catalog (and on
    what it started from). *)
Lemma price_loop_dom menu_docs : forall acc prices id,
  price_loop menu_docs acc = Ok prices ->
  is_Some (prices !! id) <-> id ∈ menu_ids menu_docs \/ is_Some (acc !! id).
Proof.
  induction menu_docs as [|m rest IH]; intros acc prices id Hl.
  - injection Hl as <-. unfold menu_ids, doc_ids. cbn. split; [by right|].
    intros [Hin|Hs]; [by apply elem_of_nil in Hin | done].
  - rewrite price_loop_cons in Hl. destruct (doc_price m) as [p|e]; [|discriminate].
    rewrite (IH _ _ id Hl). unfold menu_ids, doc_ids. rewrite fmap_cons, elem_of_cons.
    rewrite lookup_insert. case_decide as Hid; subst; split; intros Hx.
    + by left; left.
    + right. by eexists.
    + destruct Hx as [Hx|Hx]; [left; by right | by right].
    + destruct Hx as [[Hx|Hx]|Hx]; [congruence | by left | by right].
Qed.

Lemma current_price_cons m rest id :
  current_price (m :: rest) id =
  if bool_decide (oid_str (_id m) = id)
  then match doc_price m with Ok p => Some p | Raise _ => None end
  else current_price rest id.
Proof. unfold current_price. cbn [find]. by destruct (bool_decide _). Qed.

Lemma current_price_absent menu_docs id :
  id ∉ menu_ids menu_docs -> current_price menu_docs id = None.
Proof.
  induction menu_docs as [|m rest IH]; intros Hid; [done|].
  unfold menu_ids, doc_ids in Hid. rewrite fmap_cons, not_elem_of_cons in Hid.
  destruct Hid as [Hne Hrest]. rewrite current_price_cons.
  rewrite bool_decide_eq_false_2 by congruence. by apply IH.
Qed.

(** With distinct identities the mapping holds, for each identity, the
    price of the document that carries it. *)
Lemma price_loop_lookup menu_docs : forall acc prices id,
  NoDup (menu_ids menu_docs) ->
  price_loop menu_docs acc = Ok prices ->
  prices !! id =
  match current_price menu_docs id with
  | Some p => Some p
  | None => acc !! id
  end.
Proof.
  induction menu_docs as [|m rest IH]; intros acc prices id Hnd Hl.
  - by injection Hl as <-.
  - unfold menu_ids, doc_ids in Hnd. rewrite fmap_cons in Hnd. apply NoDup_cons in Hnd as [Hm Hnd].
    rewrite price_loop_cons in Hl. rewrite current_price_cons.
    destruct (doc_price m) as [p|e]; [|discriminate].
    rewrite (IH _ _ id Hnd Hl). case_bool_decide as Hid.
    + subst id. rewrite (current_price_absent rest _ Hm). by rewrite lookup_insert_eq.
    + by rewrite lookup_insert_ne.
Qed.

Lemma price_loop_current menu_docs prices id :
  NoDup (menu_ids menu_docs) ->
  price_loop menu_docs ∅ = Ok prices ->
  prices !! id = current_price menu_docs id.
Proof.
  intros Hnd Hl. rewrite (price_loop_lookup _ _ _ id Hnd Hl).
  by destruct (current_price menu_docs id).
Qed.

Lemma current_price_present menu_docs id :
  menu_priced menu_docs -> id ∈ menu_ids menu_docs ->
  is_Some (current_price menu_docs id).
Proof.
  induction menu_docs as [|m rest IH]; intros Hp Hid.
  - by apply elem_of_nil in Hid.
  - apply Forall_cons in Hp as [Hm Hp]. rewrite current_price_cons.
    unfold menu_ids, doc_ids in Hid. rewrite fmap_cons, elem_of_cons in Hid.
    case_bool_decide as Hd.
    + destruct (doc_price m); [by eexists | discriminate Hm].
    + destruct Hid as [Hid|Hid]; [congruence | by apply IH].
Qed.

(** *** The running total *)

Lemma total_loop_cons prices it rest total :
  total_loop prices (it :: rest) total =
  match prices !! OrderItem.menu_item_id it with
  | None =>
      Raise (HTTPException 400 ("Menu item not found: " +:+ OrderItem.menu_item_id it))
  | Some p =>
      match float_of_int (OrderItem.quantity it) with
      | Some q => total_loop prices rest (total + p * q)%float
      | None => Raise OverflowError
      end
  end.
Proof.
  cbn [total_loop]. destruct (prices !! _); [|done].
  by destruct (float_of_int _).
Qed.

(** The loop adds the line totals to the running total, one after the
    other, and nothing else. *)
Lemma total_loop_sum menu_docs prices :
  (forall id, prices !! id = current_price menu_docs id) ->
  forall order_items total amounts,
  mapM (line_total menu_docs) order_items = Some amounts ->
  total_loop prices order_items total = Ok (foldl PrimFloat.add total amounts).
Proof.
  intros Hpr. induction order_items as [|it rest IH]; intros total amounts Hm.
  - by simplify_option_eq.
  - rewrite total_loop_cons, Hpr. cbn [mapM] in Hm.
    destruct (line_total menu_docs it) as [a|] eqn:Ha; [|discriminate].
    destruct (mapM _ rest) as [more|] eqn:Hrest; [|discriminate].
    cbn in Hm. injection Hm as <-. unfold line_total in Ha.
    destruct (current_price menu_docs _) as [p|]; [|discriminate].
    destruct (float_of_int _) as [q|]; [|discriminate].
    cbn in Ha. injection Ha as <-. cbn [foldl]. by apply IH.
Qed.

(** A reference that the mapping does not know stops the loop; the lines
    before it are only looked up and converted. *)
Lemma total_loop_missing prices bad post : forall pre total,
  Forall (fun it => is_Some (prices !! OrderItem.menu_item_id it)) pre ->
  Forall (fun it => is_Some (float_of_int (OrderItem.quantity it))) pre ->
  prices !! OrderItem.menu_item_id bad = None ->
  total_loop prices (pre ++ bad :: post) total =
  Raise (HTTPException 400 ("Menu item not found: " +:+ OrderItem.menu_item_id bad)).
Proof.
  induction pre as [|it pre IH]; intros total Hin Hq Hbad.
  - cbn [app]. by rewrite total_loop_cons, Hbad.
  - apply Forall_cons in Hin as [[p Hp] Hin]. apply Forall_cons in Hq as [[q Hq1] Hq].
    cbn [app]. rewrite total_loop_cons, Hp, Hq1. by apply IH.
Qed.

Lemma total_loop_fails prices order_items : forall total,
  Exists (fun it => prices !! OrderItem.menu_item_id it = None) order_items ->
  exists e, total_loop prices order_items total = Raise e.
Proof.
  induction order_items as [|it rest IH]; intros total Hex.
  - by apply Exists_nil in Hex.
  - rewrite total_loop_cons. apply Exists_cons in Hex.
    destruct (prices !! OrderItem.menu_item_id it) as [p|] eqn:Hp; [|by eexists].
    destruct (float_of_int _) as [q|]; [|by eexists].
    destruct Hex as [Hex|Hex]; [congruence | by apply IH].
Qed.

(** *** What [create_order] returns *)

Lemma create_order_ok order db prices total :
  price_loop (get_documents "menuitem" db) ∅ = Ok prices ->
  total_loop prices (Order.items order) 0%float = Ok total ->
  create_order order db =
  (Ok (OrderResponse.mk (pretty (next_oid db)) (py_round2 total) (Order.status order)),
   (create_document "order"
      (<["total" := VFloat (py_round2 total)]> (Order_model_dump order)) db).2).
Proof. intros Hp Ht. unfold create_order. by rewrite Hp, Ht. Qed.

Lemma create_order_raise order db e :
  (exists prices,
     price_loop (get_documents "menuitem" db) ∅ = Ok prices /\
     total_loop prices (Order.items order) 0%float = Raise e) \/
  price_loop (get_documents "menuitem" db) ∅ = Raise e ->
  create_order order db = (Raise e, db).
Proof.
  unfold create_order. intros [(prices & Hp & Ht)|Hp].
  - by rewrite Hp, Ht.
  - by rewrite Hp.
Qed.

(** A successful [create_order] went through both loops. *)
Lemma create_order_inv order db resp db' :
  create_order order db = (Ok resp, db') ->
  exists prices total,
    price_loop (get_documents "menuitem" db) ∅ = Ok prices /\
    total_loop prices (Order.items order) 0%float = Ok total /\
    resp = OrderResponse.mk (pretty (next_oid db)) (py_round2 total) (Order.status order) /\
    db' = (create_document "order"
             (<["total" := VFloat (py_round2 total)]> (Order_model_dump order)) db).2.
Proof.
  unfold create_order.
  destruct (price_loop _ _) as [prices|e] eqn:Hp; [|discriminate].
  destruct (total_loop _ _ _) as [total|e] eqn:Ht; [|discriminate].
  unfold create_document. intros Heq. injection Heq as <- <-. by exists prices, total.
Qed.

(** C1 (amended): for every order whose items all reference identities of
    the current catalog and whose quantities all convert to a float,
    [create_order] succeeds, and the total it answers and persists is
    [round(sum(price_i * quantity_i), 2)] over the current prices. The catalog
    is one whose identities are distinct and whose prices are numbers. *)
Theorem create_order_total order db :
  let menu_docs := get_documents "menuitem" db in
  NoDup (menu_ids menu_docs) ->
  menu_priced menu_docs ->
  Forall (fun it => OrderItem.menu_item_id it ∈ menu_ids menu_docs) (Order.items order) ->
  Forall (fun it => is_Some (float_of_int (OrderItem.quantity it))) (Order.items order) ->
  exists total resp db',
    spec_total menu_docs (Order.items order) = Some total /\
    create_order order db = (Ok resp, db') /\
    OrderResponse.total resp = total /\
    get_documents "order" db' =
      get_documents "order" db ++
      [Document (mkObjectId (OrderResponse.id resp))
         (<["total" := VFloat total]> (Order_model_dump order))].
Proof.
  intros menu_docs Hnd Hpriced Hin Hq.
  destruct (price_loop_priced menu_docs ∅ Hpriced) as [prices Hp].
  assert (Hm : is_Some (mapM (line_total menu_docs) (Order.items order))).
  { apply mapM_is_Some. apply Forall_forall. intros it Hit.
    rewrite Forall_forall in Hin, Hq.
    destruct (current_price_present menu_docs _ Hpriced (Hin it Hit)) as [p Hcp].
    destruct (Hq it Hit) as [q Hfq]. unfold compose, line_total.
    rewrite Hcp, Hfq. by eexists. }
  destruct Hm as [amounts Hm].
  pose proof (total_loop_sum menu_docs prices
    (fun id => price_loop_current menu_docs prices id Hnd Hp) _ 0%float _ Hm) as Ht.
  eexists _, _, _. split; [|split; [|split]].
  - unfold spec_total. rewrite Hm. reflexivity.
  - apply (create_order_ok _ _ _ _ Hp Ht).
  - reflexivity.
  - apply get_create_same.
Qed.

(** C2 (amended): an order with a reference that the catalog does not hold
    fails, and the store is left as it was. When the catalog's prices are
    numbers and the quantities of the lines before the first missing
    reference convert to a float, the failure is the HTTP 400 that names that
    first missing reference. *)
Theorem create_order_missing_reference order db pre bad post :
  let menu_docs := get_documents "menuitem" db in
  Order.items order = pre ++ bad :: post ->
  Forall (fun it => OrderItem.menu_item_id it ∈ menu_ids menu_docs) pre ->
  OrderItem.menu_item_id bad ∉ menu_ids menu_docs ->
  (exists e, create_order order db = (Raise e, db)) /\
  (menu_priced menu_docs ->
   Forall (fun it => is_Some (float_of_int (OrderItem.quantity it))) pre ->
   create_order order db =
   (Raise (HTTPException 400 ("Menu item not found: " +:+ OrderItem.menu_item_id bad)), db)).
Proof.
  intros menu_docs Hitems Hpre Hbad. split.
  - destruct (price_loop menu_docs ∅) as [prices|e] eqn:Hp.
    + destruct (total_loop_fails prices (Order.items order) 0%float) as [e He].
      { rewrite Hitems. apply Exists_app. right. apply Exists_cons. left.
        apply eq_None_not_Some. rewrite (price_loop_dom _ _ _ _ Hp).
        intros [Hx|Hx]; [done|]. rewrite lookup_empty in Hx. by destruct Hx. }
      exists e. apply create_order_raise. left. by exists prices.
    + exists e. apply create_order_raise. by right.
  - intros Hpriced Hq.
    destruct (price_loop_priced menu_docs ∅ Hpriced) as [prices Hp].
    apply create_order_raise. left. exists prices. split; [done|].
    rewrite Hitems. apply total_loop_missing; [|done|].
    + eapply Forall_impl; [exact Hpre|]. intros it Hit. cbn.
      apply (price_loop_dom _ _ _ _ Hp). by left.
    + apply eq_None_not_Some. rewrite (price_loop_dom _ _ _ _ Hp).
      intros [Hx|Hx]; [done|]. rewrite lookup_empty in Hx. by destruct Hx.
Qed.

(** *** Rounding *)

Lemma round_half_even_nearest n d :
  (0 < d)%Z -> nearest_ties_even n d (round_half_even n d).
Proof.
  intros Hd. unfold nearest_ties_even, round_half_even.
  pose proof (Z.div_mod n d ltac:(lia)) as Hdm.
  pose proof (Z.mod_pos_bound n d Hd) as Hb.
  destruct (Z.compare_spec (2 * (n mod d)) d) as [He|Hl|Hg].
  - destruct (Z.even (n / d)) eqn:Hev.
    + split; [lia | done].
    + split; [lia|]. intros _. rewrite Z.even_add, Hev. reflexivity.
  - split; lia.
  - split; lia.
Qed.

Lemma scaled_hundred_nearest m e :
  nearest_ties_even (hundredfold_num m e) (hundredfold_den e)
    (scaled_hundred round_half_even m e).
Proof.
  unfold hundredfold_num, hundredfold_den, scaled_hundred. destruct e as [|k|k].
  - change (- 0)%Z with 0%Z. rewrite Z.max_id, Z.pow_0_r. split; lia.
  - rewrite Z.max_l, Z.max_r by lia. rewrite Z.pow_0_r. split; lia.
  - rewrite Z.max_r, Z.max_l by lia. rewrite Z.pow_0_r, Z.mul_1_r.
    change (- Z.neg k)%Z with (Z.pos k).
    apply round_half_even_nearest. by apply Z.pow_pos_nonneg.
Qed.

(** [round(x, 2)] takes the hundredth nearest to the exact value of [x], the
    even one on a tie. *)
Lemma py_round2_nearest x s m e :
  Prim2SF x = S754_finite s m e ->
  exists n,
    nearest_ties_even (hundredfold_num m e) (hundredfold_den e) n /\
    py_round2 x = hundredths s n.
Proof.
  intros Hx. exists (scaled_hundred round_half_even m e). split.
  - apply scaled_hundred_nearest.
  - unfold py_round2. by rewrite Hx.
Qed.

Lemma total_loop_amounts prices : forall order_items total acc,
  total_loop prices order_items total = Ok acc ->
  exists amounts,
    mapM (line_amount prices) order_items = Some amounts /\
    acc = foldl PrimFloat.add total amounts.
Proof.
  induction order_items as [|it rest IH]; intros total acc Ht.
  - injection Ht as <-. by exists [].
  - rewrite total_loop_cons in Ht.
    destruct (prices !! OrderItem.menu_item_id it) as [p|] eqn:Hp; [|discriminate].
    destruct (float_of_int (OrderItem.quantity it)) as [q|] eqn:Hq; [|discriminate].
    destruct (IH _ _ Ht) as (amounts & Hm & ->).
    exists ((p * q)%float :: amounts). split; [|done].
    assert (Ha : line_amount prices it = Some (p * q)%float).
    { unfold line_amount. by rewrite Hp, Hq. }
    cbn [mapM]. by rewrite Ha, Hm.
Qed.

(** C3 (amended): the total that [create_order] answers and persists is the
    sum of the unrounded line amounts, rounded once at the end by
    [round(_, 2)]: to the nearest hundredth of its exact binary value, an exact
    tie going to the even hundredth. *)
Theorem create_order_rounds_once order db resp db' :
  create_order order db = (Ok resp, db') ->
  exists prices amounts stored,
    price_loop (get_documents "menuitem" db) ∅ = Ok prices /\
    mapM (line_amount prices) (Order.items order) = Some amounts /\
    OrderResponse.total resp = py_round2 (float_sum amounts) /\
    last (get_documents "order" db') = Some stored /\
    fields stored !! "total" = Some (VFloat (py_round2 (float_sum amounts))) /\
    forall s m e,
      Prim2SF (float_sum amounts) = S754_finite s m e ->
      exists n,
        nearest_ties_even (hundredfold_num m e) (hundredfold_den e) n /\
        OrderResponse.total resp = hundredths s n.
Proof.
  intros Hc. destruct (create_order_inv _ _ _ _ Hc) as (prices & total & Hp & Ht & -> & ->).
  destruct (total_loop_amounts _ _ _ _ Ht) as (amounts & Hm & ->).
  eexists prices, amounts, _. split; [done|]. split; [done|]. split; [done|].
  split; [by rewrite get_create_same, last_snoc|].
  split; [by cbn [fields]; rewrite lookup_insert_eq|].
  intros s m e Hx. by apply py_round2_nearest.
Qed.

(** *** Validation *)

Lemma raises_validation_bind {A B} (r : result A) (k : A -> result B) :
  raises_validation r -> (forall a, raises_validation (k a)) ->
  raises_validation (r ≫= k).
Proof.
  intros Hr Hk e. destruct r as [a|e']; cbn.
  - apply Hk.
  - intros [= <-]. by apply Hr.
Qed.

Lemma raises_validation_ok {A} (a : A) : raises_validation (Ok a).
Proof. intros e. discriminate. Qed.

Lemma raises_validation_raise {A} : raises_validation (A := A) (Raise RequestValidationError).
Proof. by intros e [= <-]. Qed.

Lemma raises_validation_of_option {A} (o : option A) :
  raises_validation (of_option o RequestValidationError).
Proof. destruct o; [apply raises_validation_ok | apply raises_validation_raise]. Qed.

Lemma raises_validation_required {A} (validate : value -> result A) field :
  (forall v, raises_validation (validate v)) -> raises_validation (required validate field).
Proof. intros Hv. destruct field; [apply Hv | apply raises_validation_raise]. Qed.

Lemma raises_validation_with_default {A} (validate : value -> result A) d field :
  (forall v, raises_validation (validate v)) ->
  raises_validation (with_default validate d field).
Proof. intros Hv. destruct field; [apply Hv | apply raises_validation_ok]. Qed.

Lemma raises_validation_str v : raises_validation (validate_str v).
Proof. destruct v; first [apply raises_validation_ok | apply raises_validation_raise]. Qed.

Lemma raises_validation_optional_str v : raises_validation (validate_optional_str v).
Proof. destruct v; first [apply raises_validation_ok | apply raises_validation_raise]. Qed.

Lemma raises_validation_int v : raises_validation (validate_int v).
Proof. destruct v; first [apply raises_validation_ok | apply raises_validation_of_option]. Qed.

Lemma raises_validation_float v : raises_validation (validate_float v).
Proof. destruct v; first [apply raises_validation_ok | apply raises_validation_of_option]. Qed.

Lemma raises_validation_bool v : raises_validation (validate_bool v).
Proof. destruct v; first [apply raises_validation_ok | apply raises_validation_of_option]. Qed.

Lemma raises_validation_ge_int b z : raises_validation (ge_int b z).
Proof.
  unfold ge_int. destruct (b <=? z)%Z; [apply raises_validation_ok | apply raises_validation_raise].
Qed.

Lemma raises_validation_ge_float b f : raises_validation (ge_float b f).
Proof.
  unfold ge_float.
  destruct (b <=? f)%float; [apply raises_validation_ok | apply raises_validation_raise].
Qed.

Create HintDb validation.

#[local] Hint Resolve raises_validation_ok raises_validation_raise
  raises_validation_required raises_validation_with_default raises_validation_str
  raises_validation_optional_str raises_validation_int raises_validation_float
  raises_validation_bool raises_validation_ge_int raises_validation_ge_float : validation.

Ltac validation_steps :=
  repeat first
    [ apply raises_validation_bind; [|intros ?]
    | solve [eauto with validation] ].

Lemma raises_validation_OrderItem v : raises_validation (validate_OrderItem v).
Proof.
  destruct v; try apply raises_validation_raise.
  unfold validate_OrderItem. validation_steps.
Qed.

Lemma raises_validation_each {A} (validate : value -> result A) l :
  (forall v, raises_validation (validate v)) ->
  raises_validation (validate_each validate l).
Proof.
  intros Hv. induction l as [|v rest IH]; [apply raises_validation_ok|].
  cbn [validate_each]. validation_steps.
Qed.

Lemma raises_validation_items v : raises_validation (validate_items v).
Proof.
  destruct v; try apply raises_validation_raise.
  apply raises_validation_each, raises_validation_OrderItem.
Qed.

Lemma raises_validation_Order body : raises_validation (validate_Order body).
Proof.
  unfold validate_Order. pose proof raises_validation_items. validation_steps.
Qed.

Lemma raises_validation_MenuItem body : raises_validation (validate_MenuItem body).
Proof. unfold validate_MenuItem. validation_steps. Qed.

(** A body that validation refuses is answered with the validation error
    and the store is not touched. *)
Lemma post_orders_refused body db :
  (forall order, validate_Order body ≠ Ok order) ->
  post_orders body db = (Raise RequestValidationError, db).
Proof.
  intros Hno. unfold post_orders.
  destruct (validate_Order body) as [order|e] eqn:Hv; [by destruct (Hno order)|].
  by rewrite (raises_validation_Order body e Hv).
Qed.

Lemma bind_ok_inv {A B} (r : result A) (k : A -> result B) b :
  r ≫= k = Ok b -> exists a, r = Ok a /\ k a = Ok b.
Proof. destruct r as [a|e]; [by exists a | discriminate]. Qed.

Lemma validate_str_inv field s :
  required validate_str field = Ok s -> field = Some (VStr s).
Proof. destruct field as [[]|]; cbn; congruence. Qed.

Lemma validate_OrderItem_inv v it :
  validate_OrderItem v = Ok it ->
  exists d, v = VDict d /\
    d !! "menu_item_id" = Some (VStr (OrderItem.menu_item_id it)) /\
    (exists w, d !! "quantity" = Some w /\ validate_int w = Ok (OrderItem.quantity it)) /\
    (1 <= OrderItem.quantity it)%Z.
Proof.
  destruct v as [| | | | | | |d]; try discriminate. unfold validate_OrderItem.
  intros Hv. apply bind_ok_inv in Hv as (id & Hid & Hv).
  apply bind_ok_inv in Hv as (q & Hq & Hv). injection Hv as <-.
  apply bind_ok_inv in Hq as (z & Hz & Hge).
  unfold ge_int in Hge. destruct (1 <=? z)%Z eqn:Hle; [|discriminate].
  injection Hge as <-. apply Z.leb_le in Hle.
  exists d. split; [done|]. split; [by apply validate_str_inv|]. split; [|done].
  destruct (d !! "quantity") as [w|]; [|discriminate]. by exists w.
Qed.

Lemma validate_each_inv {A} (validate : value -> result A) l : forall out,
  validate_each validate l = Ok out ->
  Forall2 (fun v a => validate v = Ok a) l out.
Proof.
  induction l as [|v rest IH]; intros out Hv.
  - injection Hv as <-. constructor.
  - cbn [validate_each] in Hv. apply bind_ok_inv in Hv as (a & Ha & Hv).
    apply bind_ok_inv in Hv as (more & Hmore & Hv). injection Hv as <-.
    constructor; [done | by apply IH].
Qed.

(** What an accepted order body holds. *)
Lemma validate_Order_inv body order :
  validate_Order body = Ok order ->
  body !! "customer_name" = Some (VStr (Order.customer_name order)) /\
  body !! "customer_phone" = Some (VStr (Order.customer_phone order)) /\
  body !! "customer_address" = Some (VStr (Order.customer_address order)) /\
  (exists l, body !! "items" = Some (VList l) /\
     validate_each validate_OrderItem l = Ok (Order.items order)) /\
  with_default validate_optional_str None (body !! "notes") = Ok (Order.notes order) /\
  with_default validate_str "pending" (body !! "status") = Ok (Order.status order).
Proof.
  unfold validate_Order. intros Hv.
  apply bind_ok_inv in Hv as (cn & Hcn & Hv). apply bind_ok_inv in Hv as (cp & Hcp & Hv).
  apply bind_ok_inv in Hv as (ca & Hca & Hv). apply bind_ok_inv in Hv as (its & Hits & Hv).
  apply bind_ok_inv in Hv as (nt & Hnt & Hv). apply bind_ok_inv in Hv as (st & Hst & Hv).
  injection Hv as <-. cbn.
  split; [by apply validate_str_inv|]. split; [by apply validate_str_inv|].
  split; [by apply validate_str_inv|]. split; [|done].
  destruct (body !! "items") as [[| | | | | |l|]|]; try discriminate. by exists l.
Qed.

Lemma validate_Order_same_but_total body1 body2 :
  same_but_total body1 body2 -> validate_Order body1 = validate_Order body2.
Proof.
  intros Hs. unfold validate_Order.
  by rewrite (Hs "customer_name"), (Hs "customer_phone"), (Hs "customer_address"),
    (Hs "items"), (Hs "notes"), (Hs "status").
Qed.

(** C4: two requests that differ only in a ["total"] field of the body get
    the same answer and leave the same store, and the total that is persisted
    is the one the server computed and answers. *)
Theorem post_orders_ignores_total body1 body2 db :
  same_but_total body1 body2 ->
  post_orders body1 db = post_orders body2 db /\
  forall resp db',
    post_orders body1 db = (Ok resp, db') ->
    exists stored,
      last (get_documents "order" db') = Some stored /\
      fields stored !! "total" = Some (VFloat (OrderResponse.total resp)).
Proof.
  intros Hs. split.
  - unfold post_orders. by rewrite (validate_Order_same_but_total _ _ Hs).
  - intros resp db'. unfold post_orders.
    destruct (validate_Order body1) as [order|e]; [|discriminate].
    intros Hc. destruct (create_order_inv _ _ _ _ Hc) as (prices & total & _ & _ & -> & ->).
    eexists. split; [by rewrite get_create_same, last_snoc|].
    cbn [fields OrderResponse.total]. by rewrite lookup_insert_eq.
Qed.


(** *** The menu *)

Lemma seed_loop_docs seeds : forall db,
  fields <$> get_documents "menuitem" (seed_loop seeds db) =
  (fields <$> get_documents "menuitem" db) ++ (MenuItem_model_dump <$> seeds).
Proof.
  induction seeds as [|si rest IH]; intros db.
  - cbn [seed_loop fmap list_fmap]. by rewrite app_nil_r.
  - cbn [seed_loop]. rewrite IH, get_create_same, fmap_app, fmap_cons.
    cbn [fields]. by rewrite <- app_assoc.
Qed.

Lemma list_menu_nonempty db m rest :
  get_documents "menuitem" db = m :: rest ->
  list_menu db = (serialize_doc <$> (m :: rest), db).
Proof. intros Hd. unfold list_menu. by rewrite Hd. Qed.

(** C6: on a store whose menu collection is empty, [list_menu] inserts the
    four seeds and serves them; a second call right after serves the same four
    documents and leaves the store as the first call left it. *)
Theorem list_menu_seeds_once db :
  get_documents "menuitem" db = [] ->
  exists served db',
    list_menu db = (served, db') /\
    length served = 4 /\
    fields <$> get_documents "menuitem" db' = MenuItem_model_dump <$> seed_items /\
    list_menu db' = (served, db').
Proof.
  intros Hempty. exists (serialize_doc <$> get_documents "menuitem" (seed_loop seed_items db)).
  exists (seed_loop seed_items db).
  pose proof (seed_loop_docs seed_items db) as Hdocs. rewrite Hempty in Hdocs.
  cbn [fmap list_fmap app] in Hdocs.
  assert (Hlen : length (get_documents "menuitem" (seed_loop seed_items db)) = 4).
  { by rewrite <- (length_fmap fields), Hdocs. }
  split; [|split; [|split]].
  - unfold list_menu. by rewrite Hempty.
  - by rewrite length_fmap.
  - exact Hdocs.
  - destruct (get_documents "menuitem" (seed_loop seed_items db)) as [|m rest] eqn:Hd;
      [discriminate Hlen|].
    by rewrite (list_menu_nonempty _ _ _ Hd).
Qed.

(** Putting another price into an accepted menu item body: the other fields
    validate as before, the price is validated on its own. *)
Lemma validate_MenuItem_price body item v :
  validate_MenuItem body = Ok item ->
  validate_MenuItem (<["price" := v]> body) =
  (p ← validate_float v ≫= ge_float 0;
   mret (MenuItem.mk (MenuItem.name item) (MenuItem.description item) p
           (MenuItem.category item) (MenuItem.image_url item)
           (MenuItem.is_available item))).
Proof.
  unfold validate_MenuItem. intros Hv.
  rewrite lookup_insert_eq, !lookup_insert_ne by done.
  apply bind_ok_inv in Hv as (nm & -> & Hv). apply bind_ok_inv in Hv as (ds & -> & Hv).
  apply bind_ok_inv in Hv as (pr & _ & Hv). apply bind_ok_inv in Hv as (ct & -> & Hv).
  apply bind_ok_inv in Hv as (im & -> & Hv). apply bind_ok_inv in Hv as (av & -> & Hv).
  injection Hv as <-. cbn.
  by destruct (validate_float v ≫= ge_float 0).
Qed.

(** C7: in a menu item body that is otherwise valid, the price -1 is refused
    with the validation error and nothing is persisted; the price 0 is
    accepted and the item is persisted with the price 0. *)
Theorem create_menu_item_price_bound body db item :
  validate_MenuItem body = Ok item ->
  post_menu (<["price" := VInt (-1)]> body) db = (Raise RequestValidationError, db) /\
  post_menu (<["price" := VFloat (-1)]> body) db = (Raise RequestValidationError, db) /\
  forall v, v = VInt 0 \/ v = VFloat 0 ->
    exists db',
      post_menu (<["price" := v]> body) db = (Ok (pretty (next_oid db)), db') /\
      get_documents "menuitem" db' =
        get_documents "menuitem" db ++
        [Document (mkObjectId (pretty (next_oid db)))
           (MenuItem_model_dump
              (MenuItem.mk (MenuItem.name item) (MenuItem.description item) 0
                 (MenuItem.category item) (MenuItem.image_url item)
                 (MenuItem.is_available item)))].
Proof.
  intros Hv. split; [|split].
  - unfold post_menu. by rewrite (validate_MenuItem_price _ _ _ Hv).
  - unfold post_menu. by rewrite (validate_MenuItem_price _ _ _ Hv).
  - intros v [->| ->]; eexists; unfold post_menu;
      rewrite (validate_MenuItem_price _ _ _ Hv); (split; [reflexivity|]);
      apply get_create_same.
Qed.

(** C8: a successful [create_order] answers the three fields of
    [OrderResponse]: the identity of the document it has just appended to the
    order collection, as a string; the total it computed, which is the one it
    persisted; and the status of the order. *)
Theorem create_order_response order db resp db' :
  create_order order db = (Ok resp, db') ->
  exists stored prices total,
    get_documents "order" db' = get_documents "order" db ++ [stored] /\
    price_loop (get_documents "menuitem" db) ∅ = Ok prices /\
    total_loop prices (Order.items order) 0%float = Ok total /\
    resp = OrderResponse.mk (oid_str (_id stored)) (py_round2 total) (Order.status order) /\
    fields stored !! "total" = Some (VFloat (OrderResponse.total resp)) /\
    fields stored !! "status" = Some (VStr (OrderResponse.status resp)).
Proof.
  intros Hc. destruct (create_order_inv _ _ _ _ Hc) as (prices & total & Hp & Ht & -> & ->).
  eexists _, prices, total. split; [apply get_create_same|].
  split; [done|]. split; [done|]. split; [done|]. cbn [fields OrderResponse.total].
  split; [by rewrite lookup_insert_eq|].
  rewrite lookup_insert_ne by done. reflexivity.
Qed.

(** Putting another list of items into an accepted order body. *)
Lemma validate_Order_set_items body order l its :
  validate_Order body = Ok order ->
  validate_each validate_OrderItem l = Ok its ->
  validate_Order (<["items" := VList l]> body) =
  Ok (Order.mk (Order.customer_name order) (Order.customer_phone order)
        (Order.customer_address order) its (Order.notes order) (Order.status order)).
Proof.
  intros Hv Hl. unfold validate_Order in *.
  rewrite lookup_insert_eq, !lookup_insert_ne by done.
  apply bind_ok_inv in Hv as (cn & -> & Hv). apply bind_ok_inv in Hv as (cp & -> & Hv).
  apply bind_ok_inv in Hv as (ca & -> & Hv). apply bind_ok_inv in Hv as (it0 & _ & Hv).
  apply bind_ok_inv in Hv as (nt & -> & Hv). apply bind_ok_inv in Hv as (st & -> & Hv).
  injection Hv as <-. cbn. by rewrite Hl.
Qed.

(** C9: an order body that is valid but for an empty list of items is
    accepted: the order is persisted and its total is 0.0. The catalog is one
    whose prices are numbers. *)
Theorem create_order_accepts_no_items body db order :
  validate_Order body = Ok order ->
  menu_priced (get_documents "menuitem" db) ->
  let order0 := Order.mk (Order.customer_name order) (Order.customer_phone order)
                  (Order.customer_address order) [] (Order.notes order)
                  (Order.status order) in
  exists db',
    post_orders (<["items" := VList []]> body) db =
      (Ok (OrderResponse.mk (pretty (next_oid db)) 0 (Order.status order)), db') /\
    get_documents "order" db' =
      get_documents "order" db ++
      [Document (mkObjectId (pretty (next_oid db)))
         (<["total" := VFloat 0]> (Order_model_dump order0))].
Proof.
  intros Hv Hpriced order0.
  destruct (price_loop_priced _ ∅ Hpriced) as [prices Hp].
  eexists. split.
  - unfold post_orders.
    rewrite (validate_Order_set_items body order [] [] Hv eq_refl).
    by rewrite (create_order_ok _ db prices 0%float Hp).
  - apply get_create_same.
Qed.

(** *** Floats: a zero price *)

Lemma is_finite_SF x :
  is_finite x = true ->
  match Prim2SF x with
  | S754_zero _ | S754_finite _ _ _ => True
  | _ => False
  end.
Proof.
  unfold is_finite, is_nan, is_infinity.
  rewrite !FloatAxioms.eqb_spec, abs_spec.
  change (Prim2SF infinity) with (S754_infinity false).
  destruct (Prim2SF x) as [s|s| |s m e]; try done.
  by destruct s.
Qed.

Lemma float_of_int_finite z q : float_of_int z = Some q -> is_finite q = true.
Proof.
  unfold float_of_int.
  destruct (is_finite (SF2Prim (binary_normalize prec emax z 0 false))) eqn:Hf;
    [|discriminate].
  by intros [= <-].
Qed.

Lemma is_zero_SF x : is_zero x = true <-> exists s, Prim2SF x = S754_zero s.
Proof.
  unfold is_zero. rewrite FloatAxioms.eqb_spec.
  change (Prim2SF zero) with (S754_zero false).
  destruct (Prim2SF x) as [s|s| |s m e]; cbn;
    (split; [intros Hc | intros [s' Hs]]);
    try discriminate; try (by eexists); by destruct s.
Qed.

(** The product of the price 0.0 and a finite quantity is a zero. *)
Lemma mul_zero_finite q : is_finite q = true -> is_zero (0 * q)%float = true.
Proof.
  intros Hq. apply is_finite_SF in Hq. apply is_zero_SF.
  rewrite mul_spec. change (Prim2SF 0) with (S754_zero false).
  destruct (Prim2SF q) as [s|s| |s m e]; try done; by eexists.
Qed.

(** Adding a zero leaves a total as it is (up to the sign of a zero total). *)
Lemma add_zero_same total z :
  is_zero z = true -> is_nan total = false -> (total + z =? total)%float = true.
Proof.
  intros Hz Hn. apply is_zero_SF in Hz as [sz Hz].
  unfold is_nan in Hn. apply negb_false_iff in Hn.
  rewrite FloatAxioms.eqb_spec in Hn. rewrite FloatAxioms.eqb_spec, add_spec, Hz.
  destruct (Prim2SF total) as [s|s| |s m e]; try done.
  by destruct s, sz.
Qed.

(** Adding a zero leaves any total as it was: equal as a number, and nan
    stays nan. *)
Lemma add_zero_keeps total z :
  is_zero z = true ->
  (total + z =? total)%float = true \/ (total + z)%float = total.
Proof.
  intros Hz. destruct (Prim2SF total) as [s|s| |s m e] eqn:Ht.
  - left. apply add_zero_same; [done|]. unfold is_nan.
    by rewrite FloatAxioms.eqb_spec, Ht.
  - left. apply add_zero_same; [done|]. unfold is_nan.
    rewrite FloatAxioms.eqb_spec, Ht. by destruct s.
  - right. apply is_zero_SF in Hz as [sz Hz]. apply Prim2SF_inj.
    by rewrite add_spec, Hz, Ht.
  - left. apply add_zero_same; [done|]. unfold is_nan.
    rewrite FloatAxioms.eqb_spec, Ht. unfold SFeqb. cbn.
    rewrite Z.compare_refl, Pos.compare_cont_refl. by destruct s.
Qed.

Lemma current_price_elem menu_docs m :
  NoDup (menu_ids menu_docs) -> m ∈ menu_docs ->
  current_price menu_docs (oid_str (_id m)) =
  match doc_price m with Ok p => Some p | Raise _ => None end.
Proof.
  induction menu_docs as [|m0 rest IH]; intros Hnd Hin.
  - by apply elem_of_nil in Hin.
  - unfold menu_ids, doc_ids in Hnd. rewrite fmap_cons in Hnd. apply NoDup_cons in Hnd as [Hm0 Hnd].
    rewrite current_price_cons. apply elem_of_cons in Hin as [->|Hin].
    + by rewrite bool_decide_eq_true_2.
    + rewrite bool_decide_eq_false_2; [by apply IH|].
      intros Heq. apply Hm0. rewrite Heq. unfold menu_ids, doc_ids.
      apply list_elem_of_fmap. by exists m.
Qed.

(** C10 (amended): a menu document without a price does not stop the price
    resolution: its price is 0.0. An order line that references it is found,
    and with a quantity that converts to a float its amount is a zero, which
    leaves the running total as it was; the line fails only as a line on any
    item does, on a quantity that does not convert. *)
Theorem missing_price_counts_as_zero menu_docs m prices :
  NoDup (menu_ids menu_docs) ->
  m ∈ menu_docs ->
  fields m !! "price" = None ->
  price_loop menu_docs ∅ = Ok prices ->
  doc_price m = Ok 0%float /\
  prices !! oid_str (_id m) = Some 0%float /\
  forall it others total,
    OrderItem.menu_item_id it = oid_str (_id m) ->
    total_loop prices (it :: others) total =
      (q ← of_option (float_of_int (OrderItem.quantity it)) OverflowError;
       total_loop prices others (total + 0 * q)%float) /\
    forall q, float_of_int (OrderItem.quantity it) = Some q ->
      is_zero (0 * q)%float = true /\
      ((total + 0 * q =? total)%float = true \/ (total + 0 * q)%float = total).
Proof.
  intros Hnd Hin Hprice Hp.
  assert (Hdoc : doc_price m = Ok 0%float).
  { unfold doc_price. by rewrite Hprice. }
  assert (Hlook : prices !! oid_str (_id m) = Some 0%float).
  { rewrite (price_loop_current _ _ _ Hnd Hp), (current_price_elem _ _ Hnd Hin).
    by rewrite Hdoc. }
  split; [done|]. split; [done|]. intros it others total Hid. split.
  - rewrite total_loop_cons, Hid, Hlook. by destruct (float_of_int _).
  - intros q Hq. apply float_of_int_finite in Hq.
    pose proof (mul_zero_finite q Hq) as Hz. split; [done|].
    by apply add_zero_keeps.
Qed.

(** *** What the endpoints keep *)

Lemma seed_loop_wf seeds : forall db, store_wf db -> store_wf (seed_loop seeds db).
Proof.
  induction seeds as [|si rest IH]; intros db Hwf; [done|].
  cbn [seed_loop]. by apply IH, create_document_wf.
Qed.

Lemma list_menu_wf db : store_wf db -> store_wf (list_menu db).2.
Proof.
  intros Hwf. unfold list_menu. destruct (get_documents "menuitem" db); [|done].
  by apply seed_loop_wf.
Qed.

Lemma post_menu_wf body db : store_wf db -> store_wf (post_menu body db).2.
Proof.
  intros Hwf. unfold post_menu, create_menu_item.
  destruct (validate_MenuItem body); [|done]. by apply create_document_wf.
Qed.

Lemma create_order_wf order db : store_wf db -> store_wf (create_order order db).2.
Proof.
  intros Hwf. unfold create_order.
  destruct (price_loop _ _); [|done]. destruct (total_loop _ _ _); [|done].
  by apply create_document_wf.
Qed.

(** The identities of the catalog of a well-formed store are distinct. *)
Lemma store_wf_menu_ids db :
  store_wf db -> NoDup (menu_ids (get_documents "menuitem" db)).
Proof. intros Hwf. by apply get_documents_wf. Qed.

(** A menu item that went through validation is stored with a price that
    [float] reads back. *)
Lemma doc_price_dump oid item :
  doc_price (Document oid (MenuItem_model_dump item)) = Ok (MenuItem.price item).
Proof. reflexivity. Qed.

Lemma post_menu_priced body db :
  menu_priced (get_documents "menuitem" db) ->
  menu_priced (get_documents "menuitem" (post_menu body db).2).
Proof.
  intros Hp. unfold post_menu, create_menu_item.
  destruct (validate_MenuItem body) as [item|e]; [|done].
  change (menu_priced (get_documents "menuitem"
            (create_document "menuitem" (MenuItem_model_dump item) db).2)).
  rewrite get_create_same. apply Forall_app. split; [done|].
  apply Forall_singleton. by rewrite doc_price_dump.
Qed.

Lemma create_order_keeps_menu order db :
  get_documents "menuitem" (create_order order db).2 = get_documents "menuitem" db.
Proof.
  unfold create_order.
  destruct (price_loop _ _); [|done]. destruct (total_loop _ _ _) as [total|e]; [|done].
  change (get_documents "menuitem"
            (create_document "order"
               (<["total" := VFloat (py_round2 total)]> (Order_model_dump order)) db).2 =
          get_documents "menuitem" db).
  by apply get_create_other.
Qed.

Lemma seed_loop_priced seeds : forall db,
  menu_priced (get_documents "menuitem" db) ->
  menu_priced (get_documents "menuitem" (seed_loop seeds db)).
Proof.
  induction seeds as [|si rest IH]; intros db Hp; [done|].
  cbn [seed_loop]. apply IH. rewrite get_create_same. apply Forall_app. split; [done|].
  apply Forall_singleton. by rewrite doc_price_dump.
Qed.

Lemma list_menu_priced db :
  menu_priced (get_documents "menuitem" db) ->
  menu_priced (get_documents "menuitem" (list_menu db).2).
Proof.
  intros Hp. unfold list_menu. destruct (get_documents "menuitem" db) eqn:Hd.
  - cbn [snd]. apply seed_loop_priced. by rewrite Hd.
  - cbn [snd]. by rewrite Hd.
Qed.

Lemma post_orders_wf body db : store_wf db -> store_wf (post_orders body db).2.
Proof.
  intros Hwf. unfold post_orders. destruct (validate_Order body); [|done].
  by apply create_order_wf.
Qed.

Lemma post_orders_keeps_menu body db :
  get_documents "menuitem" (post_orders body db).2 = get_documents "menuitem" db.
Proof.
  unfold post_orders. destruct (validate_Order body); [|done].
  apply create_order_keeps_menu.
Qed.

(** Every store that the endpoints build has distinct identities and a
    catalog whose prices are numbers. *)
Lemma reachable_invariant db :
  reachable db -> store_wf db /\ menu_priced (get_documents "menuitem" db).
Proof.
  induction 1 as [|db _ [Hwf Hp]|body db _ [Hwf Hp]|body db _ [Hwf Hp]].
  - split; [apply store_wf_empty | constructor].
  - split; [by apply list_menu_wf | by apply list_menu_priced].
  - split; [by apply post_menu_wf | by apply post_menu_priced].
  - split; [by apply post_orders_wf | by rewrite post_orders_keeps_menu].
Qed.

(** An order with a reference that the catalog does not hold has a first
    such reference. *)
Lemma first_missing_reference (ids : list string) (order_items : list OrderItem.t) :
  Exists (fun it => OrderItem.menu_item_id it ∉ ids) order_items ->
  exists pre bad post,
    order_items = pre ++ bad :: post /\
    Forall (fun it => OrderItem.menu_item_id it ∈ ids) pre /\
    OrderItem.menu_item_id bad ∉ ids.
Proof.
  induction order_items as [|it rest IH]; intros Hex.
  - by apply Exists_nil in Hex.
  - destruct (decide (OrderItem.menu_item_id it ∈ ids)) as [Hin|Hout].
    + apply Exists_cons in Hex as [Hex|Hex]; [done|].
      destruct (IH Hex) as (pre & bad & post & -> & Hpre & Hbad).
      exists (it :: pre), bad, post. split; [done|]. split; [by constructor | done].
    + exists [], it, rest. split; [done|]. split; [constructor | done].
Qed.

End Properties.

(** ** More of the code *)

Section Coverage.
Context `{Runtime}.

(** *** [serialize_doc] *)

Lemma serialize_doc_lookup doc k :
  serialize_doc doc !! k =
  if decide ("id" = k) then Some (VStr (oid_str (_id doc)))
  else stringify_oid <$> fields doc !! k.
Proof.
  unfold serialize_doc. rewrite lookup_fmap, lookup_insert.
  by case_decide.
Qed.

Lemma serialize_doc_no_oid doc : no_oid (serialize_doc doc).
Proof.
  intros k v Hk h ->. rewrite serialize_doc_lookup in Hk. case_decide; [discriminate|].
  destruct (fields doc !! k) as [[]|]; discriminate.
Qed.

(** X1: a served document carries the identity as a string under ["id"];
    none of its values is an ObjectId; every other field is served as it is
    stored, an ObjectId as its string. A list or a dict is served as stored,
    ObjectIds inside it included. *)
Theorem serialize_doc_shape doc :
  serialize_doc doc !! "id" = Some (VStr (oid_str (_id doc))) /\
  no_oid (serialize_doc doc) /\
  (forall k, k ≠ "id" -> fields doc !! k = None -> serialize_doc doc !! k = None) /\
  (forall k h, k ≠ "id" -> fields doc !! k = Some (VObjectId h) ->
     serialize_doc doc !! k = Some (VStr h)) /\
  (forall k v, k ≠ "id" -> fields doc !! k = Some v -> (forall h, v ≠ VObjectId h) ->
     serialize_doc doc !! k = Some v).
Proof.
  split; [|split; [|split; [|split]]].
  - rewrite serialize_doc_lookup. by case_decide.
  - apply serialize_doc_no_oid.
  - intros k Hne Hk. rewrite serialize_doc_lookup, Hk. by case_decide.
  - intros k h Hne Hk. rewrite serialize_doc_lookup, Hk. by case_decide.
  - intros k v Hne Hk Hv. rewrite serialize_doc_lookup, Hk. case_decide; [done|].
    cbn. f_equal. destruct v; try done. by destruct (Hv hex).
Qed.

Lemma stringify_MenuItem_dump item :
  stringify_oid <$> MenuItem_model_dump item = MenuItem_model_dump item.
Proof.
  unfold MenuItem_model_dump. rewrite !fmap_insert, map_fmap_singleton.
  by destruct (MenuItem.description item), (MenuItem.image_url item).
Qed.

Lemma stringify_Order_dump order total :
  stringify_oid <$> <["total" := VFloat total]> (Order_model_dump order) =
  <["total" := VFloat total]> (Order_model_dump order).
Proof.
  unfold Order_model_dump. rewrite !fmap_insert, map_fmap_singleton.
  by destruct (Order.notes order).
Qed.

Lemma serialize_doc_insert oid (data : gmap string value) :
  stringify_oid <$> data = data ->
  serialize_doc (Document oid data) = <["id" := VStr (oid_str oid)]> data.
Proof. intros Hd. unfold serialize_doc. cbn [_id fields]. by rewrite fmap_insert, Hd. Qed.

(** *** [list_menu] and [create_menu_item] *)

Lemma list_menu_stored db :
  get_documents "menuitem" db ≠ [] ->
  list_menu db = (serialize_doc <$> get_documents "menuitem" db, db).
Proof.
  intros Hne. unfold list_menu. by destruct (get_documents "menuitem" db).
Qed.

Lemma seed_loop_other seeds c : forall db,
  c ≠ "menuitem" -> get_documents c (seed_loop seeds db) = get_documents c db.
Proof.
  induction seeds as [|si rest IH]; intros db Hc; [done|].
  cbn [seed_loop]. rewrite IH by done. by apply get_create_other.
Qed.

(** X2: a menu item that [create_menu_item] has stored is served by the next
    [list_menu] as the last document, with every field of the item as it was
    given and the returned identity under ["id"]; the documents before it are
    served as before and the listing writes nothing. *)
Theorem create_menu_item_round_trip item db :
  list_menu (create_menu_item item db).2 =
  ((serialize_doc <$> get_documents "menuitem" db) ++
     [<["id" := VStr (create_menu_item item db).1]> (MenuItem_model_dump item)],
   (create_menu_item item db).2).
Proof.
  unfold create_menu_item. rewrite list_menu_stored.
  - rewrite get_create_same, fmap_app. cbn [fmap list_fmap].
    by rewrite (serialize_doc_insert _ _ (stringify_MenuItem_dump item)).
  - rewrite get_create_same. by destruct (get_documents "menuitem" db).
Qed.

(** X3: [list_menu] never serves an empty menu, and every document it serves
    has a string under ["id"] and no ObjectId left among its values. *)
Theorem list_menu_never_empty db :
  (list_menu db).1 ≠ [] /\
  Forall (fun d => (exists s, d !! "id" = Some (VStr s)) /\ no_oid d) (list_menu db).1.
Proof.
  assert (Hall : forall docs,
    Forall (fun d => (exists s, d !! "id" = Some (VStr s)) /\ no_oid d)
      (serialize_doc <$> docs)).
  { intros docs. apply Forall_fmap, Forall_forall. intros doc _. cbn.
    split; [|apply serialize_doc_no_oid].
    exists (oid_str (_id doc)). rewrite serialize_doc_lookup. by case_decide. }
  unfold list_menu. destruct (get_documents "menuitem" db) as [|m rest] eqn:Hd.
  - cbn [fst]. split; [|apply Hall].
    pose proof (seed_loop_docs seed_items db) as Hdocs. rewrite Hd in Hdocs.
    intros Hnil. apply fmap_nil_inv in Hnil. rewrite Hnil in Hdocs. discriminate Hdocs.
  - cbn [fst]. split; [done | apply Hall].
Qed.

(** X4: [list_menu] is idempotent on every store, and it leaves every
    collection but the menu as it is. *)
Theorem list_menu_idempotent db :
  list_menu (list_menu db).2 = list_menu db /\
  forall c, c ≠ "menuitem" -> get_documents c (list_menu db).2 = get_documents c db.
Proof.
  unfold list_menu at 2 3 4. destruct (get_documents "menuitem" db) as [|m rest] eqn:Hd.
  - cbn [snd]. split; [|intros c Hc; by apply seed_loop_other].
    apply list_menu_stored.
    pose proof (seed_loop_docs seed_items db) as Hdocs. rewrite Hd in Hdocs.
    intros Hnil. rewrite Hnil in Hdocs. discriminate Hdocs.
  - cbn [snd]. split; [|done]. rewrite list_menu_stored; by rewrite Hd.
Qed.

(** *** The outcomes of [create_order] *)

Lemma total_loop_ok_items prices : forall order_items total acc,
  total_loop prices order_items total = Ok acc ->
  Forall (fun it => is_Some (prices !! OrderItem.menu_item_id it) /\
                    is_Some (float_of_int (OrderItem.quantity it))) order_items.
Proof.
  induction order_items as [|it rest IH]; intros total acc Ht; [constructor|].
  rewrite total_loop_cons in Ht.
  destruct (prices !! OrderItem.menu_item_id it) as [p|] eqn:Hp; [|discriminate].
  destruct (float_of_int (OrderItem.quantity it)) as [q|] eqn:Hq; [|discriminate].
  constructor; [by split; eexists | by eapply IH].
Qed.

Lemma total_loop_items_ok prices : forall order_items total,
  Forall (fun it => is_Some (prices !! OrderItem.menu_item_id it) /\
                    is_Some (float_of_int (OrderItem.quantity it))) order_items ->
  exists acc, total_loop prices order_items total = Ok acc.
Proof.
  induction order_items as [|it rest IH]; intros total Hall; [by eexists|].
  apply Forall_cons in Hall as [[[p Hp] [q Hq]] Hall].
  rewrite total_loop_cons, Hp, Hq. by apply IH.
Qed.

Lemma total_loop_raise_inv prices : forall order_items total e,
  total_loop prices order_items total = Raise e ->
  e = OverflowError \/
  exists it, it ∈ order_items /\ prices !! OrderItem.menu_item_id it = None /\
    e = HTTPException 400 ("Menu item not found: " +:+ OrderItem.menu_item_id it).
Proof.
  induction order_items as [|it rest IH]; intros total e Ht; [discriminate|].
  rewrite total_loop_cons in Ht.
  destruct (prices !! OrderItem.menu_item_id it) as [p|] eqn:Hp.
  - destruct (float_of_int (OrderItem.quantity it)) as [q|].
    + destruct (IH _ _ Ht) as [->|(it' & Hin & Hnone & ->)]; [by left|].
      right. exists it'. split; [by apply elem_of_cons; right | done].
    + injection Ht as <-. by left.
  - injection Ht as <-. right. exists it. split; [by apply elem_of_cons; left | done].
Qed.

Lemma py_float_raise_inv v e :
  py_float v = Raise e -> e = TypeError \/ e = ValueError \/ e = OverflowError.
Proof.
  destruct v; cbn; try (intros [= <-]; by left); try discriminate.
  - destruct (float_of_int z); [discriminate|]. intros [= <-]. by right; right.
  - destruct (float_of_str s); [discriminate|]. intros [= <-]. by right; left.
Qed.

Lemma price_loop_raise_inv menu_docs : forall acc e,
  price_loop menu_docs acc = Raise e ->
  exists m, m ∈ menu_docs /\ doc_price m = Raise e.
Proof.
  induction menu_docs as [|m rest IH]; intros acc e Hl; [discriminate|].
  rewrite price_loop_cons in Hl. destruct (doc_price m) as [p|e'] eqn:Hm.
  - destruct (IH _ _ Hl) as (m' & Hin & Hm'). exists m'.
    split; [by apply elem_of_cons; right | done].
  - injection Hl as <-. exists m. split; [by apply elem_of_cons; left | done].
Qed.

Lemma price_loop_absent menu_docs prices id :
  price_loop menu_docs ∅ = Ok prices ->
  prices !! id = None <-> id ∉ menu_ids menu_docs.
Proof.
  intros Hp. rewrite eq_None_not_Some, (price_loop_dom _ _ _ id Hp).
  split.
  - intros Hno Hin. apply Hno. by left.
  - intros Hout [Hin|Hs]; [done|]. rewrite lookup_empty in Hs. by destruct Hs.
Qed.

Lemma create_order_raise_store order db e db' :
  create_order order db = (Raise e, db') -> db' = db.
Proof.
  unfold create_order. destruct (price_loop _ _); [|by intros [= _ <-]].
  destruct (total_loop _ _ _); [discriminate | by intros [= _ <-]].
Qed.

(** X5: [create_order] succeeds exactly when every menu document has a price
    that [float] accepts, every item references an identity of the catalog,
    and every quantity converts to a float. *)
Theorem create_order_succeeds_iff order db :
  is_ok (create_order order db).1 = true <->
  menu_priced (get_documents "menuitem" db) /\
  Forall (fun it =>
            OrderItem.menu_item_id it ∈ menu_ids (get_documents "menuitem" db) /\
            is_Some (float_of_int (OrderItem.quantity it))) (Order.items order).
Proof.
  split.
  - destruct (create_order order db) as [[resp|e] db'] eqn:Hc; [|discriminate]. intros _.
    destruct (create_order_inv _ _ _ _ Hc) as (prices & total & Hp & Ht & _).
    split; [by eapply price_loop_ok_priced|].
    eapply Forall_impl; [exact (total_loop_ok_items _ _ _ _ Ht)|].
    intros it [Hin Hq]. split; [|done].
    apply (price_loop_dom _ _ _ _ Hp) in Hin as [Hin|Hin]; [done|].
    rewrite lookup_empty in Hin. by destruct Hin.
  - intros [Hpriced Hall].
    destruct (price_loop_priced _ ∅ Hpriced) as [prices Hp].
    destruct (total_loop_items_ok prices (Order.items order) 0%float) as [acc Ht].
    { eapply Forall_impl; [exact Hall|]. intros it [Hin Hq]. split; [|done].
      apply (price_loop_dom _ _ _ _ Hp). by left. }
    by rewrite (create_order_ok _ _ _ _ Hp Ht).
Qed.

(** X6: when [create_order] raises, the store is as it was, and the
    exception is an HTTP 400 that names an item of the order whose reference
    the catalog does not hold, an OverflowError, or the TypeError or
    ValueError of a menu price that [float] refuses. It never raises another
    HTTP status and never a validation error. *)
Theorem create_order_failures order db e db' :
  create_order order db = (Raise e, db') ->
  db' = db /\
  ((exists it, it ∈ Order.items order /\
      (OrderItem.menu_item_id it ∉ menu_ids (get_documents "menuitem" db)) /\
      e = HTTPException 400 ("Menu item not found: " +:+ OrderItem.menu_item_id it)) \/
   e = OverflowError \/
   (exists m, m ∈ get_documents "menuitem" db /\ doc_price m = Raise e /\
      (e = TypeError \/ e = ValueError \/ e = OverflowError))).
Proof.
  unfold create_order.
  destruct (price_loop (get_documents "menuitem" db) ∅) as [prices|e1] eqn:Hp.
  - destruct (total_loop prices (Order.items order) 0%float) as [total|e2] eqn:Ht;
      [discriminate|].
    intros [= <- <-]. split; [done|].
    destruct (total_loop_raise_inv _ _ _ _ Ht) as [->|(it & Hin & Hnone & ->)];
      [by right; left|].
    left. exists it. split; [done|]. split; [|done].
    by apply (price_loop_absent _ _ _ Hp).
  - intros [= <- <-]. split; [done|]. right; right.
    destruct (price_loop_raise_inv _ _ _ Hp) as (m & Hin & Hm).
    exists m. split; [done|]. split; [done|]. by apply (py_float_raise_inv _ _ Hm).
Qed.

(** X7: whatever its outcome, [create_order] leaves every collection but the
    orders as it is, and it grows the order collection by at most the one
    document of the order. *)
Theorem create_order_frame order db :
  (forall c, c ≠ "order" -> get_documents c (create_order order db).2 = get_documents c db) /\
  (get_documents "order" (create_order order db).2 = get_documents "order" db \/
   exists stored,
     get_documents "order" (create_order order db).2 =
       get_documents "order" db ++ [stored] /\
     Order_model_dump order ⊆ fields stored).
Proof.
  destruct (create_order order db) as [[resp|e] db'] eqn:Hc.
  - destruct (create_order_inv _ _ _ _ Hc) as (prices & total & _ & _ & _ & ->).
    cbn [snd]. split.
    + intros c Hc'. by apply get_create_other.
    + right. eexists. split; [apply get_create_same|]. cbn [fields].
      by apply insert_subseteq.
  - apply create_order_raise_store in Hc as ->. cbn [snd]. split; [done | by left].
Qed.

(** X8: [POST /menu] either answers the validation error and leaves the
    store as it is, or stores the validated item as the last menu document,
    answers its identity, and leaves the other collections as they are. *)
Theorem post_menu_outcome body db :
  post_menu body db = (Raise RequestValidationError, db) \/
  exists item,
    validate_MenuItem body = Ok item /\
    (post_menu body db).1 = Ok (pretty (next_oid db)) /\
    get_documents "menuitem" (post_menu body db).2 =
      get_documents "menuitem" db ++
      [Document (mkObjectId (pretty (next_oid db))) (MenuItem_model_dump item)] /\
    forall c, c ≠ "menuitem" -> get_documents c (post_menu body db).2 = get_documents c db.
Proof.
  unfold post_menu, create_menu_item.
  destruct (validate_MenuItem body) as [item|e] eqn:Hv.
  - right. exists item. split; [done|]. split; [done|].
    change ((let '(new_id, db') := create_document "menuitem" (MenuItem_model_dump item) db
             in (Ok new_id, db')).2)
      with (create_document "menuitem" (MenuItem_model_dump item) db).2.
    split; [apply get_create_same|]. intros c Hc. by apply get_create_other.
  - left. by rewrite (raises_validation_MenuItem body e Hv).
Qed.

(** *** What the schemas let through *)

(** A float that passes [ge=0] is not nan and not below zero. *)
Lemma ge_zero_sound p :
  (0 <=? p)%float = true -> is_nan p = false /\ (p <? 0)%float = false.
Proof.
  unfold is_nan. rewrite leb_spec, ltb_spec, FloatAxioms.eqb_spec.
  change (Prim2SF 0) with (S754_zero false).
  destruct (Prim2SF p) as [s|s| |s m e]; cbn; try discriminate.
  - done.
  - by destruct s.
  - destruct s; [discriminate|]. intros _. unfold SFeqb, SFltb. cbn.
    by rewrite Z.compare_refl, Pos.compare_cont_refl.
Qed.

Lemma ge_float_inv b f p : ge_float b f = Ok p -> p = f /\ (b <=? f)%float = true.
Proof. unfold ge_float. destruct (b <=? f)%float; [by intros [= <-] | discriminate]. Qed.

Lemma with_default_absent {A} (validate : value -> result A) d a :
  with_default validate d None = Ok a -> a = d.
Proof. by intros [= <-]. Qed.

(** X9: a menu item body that validation accepts holds [name] and
    [category] as strings; the accepted price is not nan and not negative; a
    field left out takes its default: [is_available] true, [description] and
    [image_url] none. *)
Theorem validate_MenuItem_accepts body item :
  validate_MenuItem body = Ok item ->
  body !! "name" = Some (VStr (MenuItem.name item)) /\
  body !! "category" = Some (VStr (MenuItem.category item)) /\
  is_nan (MenuItem.price item) = false /\
  (MenuItem.price item <? 0)%float = false /\
  (body !! "is_available" = None -> MenuItem.is_available item = true) /\
  (body !! "description" = None -> MenuItem.description item = None) /\
  (body !! "image_url" = None -> MenuItem.image_url item = None).
Proof.
  unfold validate_MenuItem. intros Hv.
  apply bind_ok_inv in Hv as (nm & Hnm & Hv). apply bind_ok_inv in Hv as (ds & Hds & Hv).
  apply bind_ok_inv in Hv as (pr & Hpr & Hv). apply bind_ok_inv in Hv as (ct & Hct & Hv).
  apply bind_ok_inv in Hv as (im & Him & Hv). apply bind_ok_inv in Hv as (av & Hav & Hv).
  injection Hv as <-. cbn.
  apply bind_ok_inv in Hpr as (f & _ & Hge). apply ge_float_inv in Hge as [-> Hge].
  destruct (ge_zero_sound f Hge) as [Hnan Hneg].
  split; [by apply validate_str_inv|]. split; [by apply validate_str_inv|].
  split; [done|]. split; [done|].
  split; [|split]; intros Hnone; rewrite Hnone in *.
  - by apply with_default_absent in Hav.
  - by apply with_default_absent in Hds.
  - by apply with_default_absent in Him.
Qed.

(** X10: an order body that validation accepts holds a list under [items],
    and the accepted items are its elements one for one, in order: each a dict
    with [menu_item_id] a string and a quantity that validates as the item's
    integer quantity, which is at least 1. *)
Theorem validate_Order_items body order :
  validate_Order body = Ok order ->
  exists l,
    body !! "items" = Some (VList l) /\
    Forall2 (fun v it =>
               exists d, v = VDict d /\
                 d !! "menu_item_id" = Some (VStr (OrderItem.menu_item_id it)) /\
                 (exists w, d !! "quantity" = Some w /\
                    validate_int w = Ok (OrderItem.quantity it)) /\
                 (1 <= OrderItem.quantity it)%Z) l (Order.items order).
Proof.
  intros Hv. apply validate_Order_inv in Hv as (_ & _ & _ & (l & Hl & Hits) & _).
  exists l. split; [done|]. apply validate_each_inv in Hits.
  eapply Forall2_impl; [exact Hits|]. intros v it Hit.
  by apply validate_OrderItem_inv.
Qed.

Ltac dump_lookup :=
  repeat first
    [ rewrite lookup_insert_eq
    | rewrite lookup_insert_ne by done
    | rewrite lookup_singleton_eq ].

Lemma validate_OrderItem_dump it :
  validate_OrderItem (VDict (OrderItem_model_dump it)) =
  if (1 <=? OrderItem.quantity it)%Z then Ok it else Raise RequestValidationError.
Proof.
  destruct it as [id q]. unfold validate_OrderItem, OrderItem_model_dump.
  dump_lookup. cbn. unfold ge_int. by destruct (1 <=? q)%Z.
Qed.

Lemma validate_each_dump order_items :
  validate_each validate_OrderItem
    ((fun it => VDict (OrderItem_model_dump it)) <$> order_items) =
  if forallb (fun it => (1 <=? OrderItem.quantity it)%Z) order_items
  then Ok order_items else Raise RequestValidationError.
Proof.
  induction order_items as [|it rest IH]; [done|].
  cbn [fmap list_fmap validate_each forallb]. rewrite validate_OrderItem_dump, IH.
  destruct (1 <=? OrderItem.quantity it)%Z; [|done]. cbn.
  by destruct (forallb _ rest).
Qed.

(** X11: [model_dump] and validation of an order are a round trip: the dump
    of an order validates back to that order when every quantity is at least
    1, and is refused otherwise; a ["total"] put on top, as in the persisted
    document, changes nothing. *)
Theorem Order_dump_round_trip order v :
  validate_Order (Order_model_dump order) =
    (if forallb (fun it => (1 <=? OrderItem.quantity it)%Z) (Order.items order)
     then Ok order else Raise RequestValidationError) /\
  validate_Order (<["total" := v]> (Order_model_dump order)) =
    validate_Order (Order_model_dump order).
Proof.
  split.
  - destruct order as [cn cp ca its nt st]. unfold validate_Order, Order_model_dump.
    dump_lookup. cbn -[validate_each forallb]. rewrite validate_each_dump.
    destruct (forallb _ its); [|done]. cbn. by destruct nt.
  - apply validate_Order_same_but_total. intros k Hk. by rewrite lookup_insert_ne.
Qed.

(** X12: [model_dump] and validation of a menu item are a round trip: the
    dump of an item validates back to that item when its price passes [ge=0],
    and is refused otherwise. *)
Theorem MenuItem_dump_round_trip item :
  validate_MenuItem (MenuItem_model_dump item) =
  if (0 <=? MenuItem.price item)%float then Ok item else Raise RequestValidationError.
Proof.
  destruct item as [nm ds pr ct im av]. unfold validate_MenuItem, MenuItem_model_dump.
  dump_lookup. cbn. unfold ge_float.
  destruct ds, im; cbn; by destruct (0 <=? pr)%float.
Qed.

(** *** The catalog that the endpoints build *)

Lemma menu_nonneg_priced menu_docs : menu_nonneg menu_docs -> menu_priced menu_docs.
Proof.
  intros Hn. eapply Forall_impl; [exact Hn|].
  intros m (p & Hp & _). unfold doc_price. by rewrite Hp.
Qed.

Lemma menu_nonneg_create item db :
  (0 <=? MenuItem.price item)%float = true ->
  menu_nonneg (get_documents "menuitem" db) ->
  menu_nonneg
    (get_documents "menuitem" (create_document "menuitem" (MenuItem_model_dump item) db).2).
Proof.
  intros Hge Hn. rewrite get_create_same. apply Forall_app. split; [done|].
  apply Forall_singleton. exists (MenuItem.price item). split; [|done].
  cbn [fields]. unfold MenuItem_model_dump. by dump_lookup.
Qed.

Lemma validate_MenuItem_nonneg body item :
  validate_MenuItem body = Ok item -> (0 <=? MenuItem.price item)%float = true.
Proof.
  unfold validate_MenuItem. intros Hv.
  apply bind_ok_inv in Hv as (nm & _ & Hv). apply bind_ok_inv in Hv as (ds & _ & Hv).
  apply bind_ok_inv in Hv as (pr & Hpr & Hv). apply bind_ok_inv in Hv as (ct & _ & Hv).
  apply bind_ok_inv in Hv as (im & _ & Hv). apply bind_ok_inv in Hv as (av & _ & Hv).
  injection Hv as <-. cbn.
  apply bind_ok_inv in Hpr as (f & _ & Hge). by apply ge_float_inv in Hge as [-> Hge].
Qed.

Lemma seed_loop_nonneg seeds : forall db,
  Forall (fun si => (0 <=? MenuItem.price si)%float = true) seeds ->
  menu_nonneg (get_documents "menuitem" db) ->
  menu_nonneg (get_documents "menuitem" (seed_loop seeds db)).
Proof.
  induction seeds as [|si rest IH]; intros db Hs Hn; [done|].
  apply Forall_cons in Hs as [Hsi Hs]. cbn [seed_loop]. apply IH; [done|].
  by apply menu_nonneg_create.
Qed.

Lemma seed_items_nonneg :
  Forall (fun si => (0 <=? MenuItem.price si)%float = true) seed_items.
Proof. repeat constructor. Qed.

(** X13: in every store that the endpoints build from the empty one, every
    menu document holds a float price that passed [ge=0]: not nan and not
    negative. *)
Theorem reachable_menu_nonneg db :
  reachable db ->
  Forall (fun m => exists p, fields m !! "price" = Some (VFloat p) /\
                             is_nan p = false /\ (p <? 0)%float = false)
    (get_documents "menuitem" db).
Proof.
  intros Hr.
  assert (Hn : menu_nonneg (get_documents "menuitem" db)).
  { induction Hr as [|db _ IH|body db _ IH|body db _ IH].
    - constructor.
    - unfold list_menu. destruct (get_documents "menuitem" db) eqn:Hd.
      + cbn [snd]. apply seed_loop_nonneg; [apply seed_items_nonneg | by rewrite Hd].
      + cbn [snd]. by rewrite Hd.
    - unfold post_menu, create_menu_item.
      destruct (validate_MenuItem body) as [item|e] eqn:Hv; [|done].
      apply (menu_nonneg_create item db); [by eapply validate_MenuItem_nonneg | done].
    - by rewrite post_orders_keeps_menu. }
  eapply Forall_impl; [exact Hn|]. intros m (p & Hp & Hge).
  exists p. split; [done|]. by apply ge_zero_sound.
Qed.

Lemma reachable_priced db : reachable db -> menu_priced (get_documents "menuitem" db).
Proof. intros Hr. by apply reachable_invariant. Qed.

(** X14: on a store that the endpoints built, [create_order] can only fail
    on the order itself: with the HTTP 400 for an item whose reference the
    catalog does not hold, or with an OverflowError for a quantity that does
    not convert to a float. An order whose references are all in the catalog
    and whose quantities all convert succeeds. *)
Theorem reachable_create_order db order :
  reachable db ->
  (forall e db', create_order order db = (Raise e, db') ->
     (exists it, it ∈ Order.items order /\
        (OrderItem.menu_item_id it ∉ menu_ids (get_documents "menuitem" db)) /\
        e = HTTPException 400 ("Menu item not found: " +:+ OrderItem.menu_item_id it)) \/
     (e = OverflowError /\
      exists it, it ∈ Order.items order /\
        float_of_int (OrderItem.quantity it) = None)) /\
  (Forall (fun it =>
             OrderItem.menu_item_id it ∈ menu_ids (get_documents "menuitem" db) /\
             is_Some (float_of_int (OrderItem.quantity it))) (Order.items order) ->
   is_ok (create_order order db).1 = true).
Proof.
  intros Hr. pose proof (reachable_priced db Hr) as Hpriced.
  destruct (price_loop_priced _ ∅ Hpriced) as [prices Hp]. split.
  - intros e db'. unfold create_order. rewrite Hp.
    destruct (total_loop prices (Order.items order) 0%float) as [total|e2] eqn:Ht;
      [discriminate|].
    intros [= <- <-]. clear Hr Hpriced.
    assert (Hgen : forall order_items total,
      total_loop prices order_items total = Raise e2 ->
      (exists it, it ∈ order_items /\ prices !! OrderItem.menu_item_id it = None /\
         e2 = HTTPException 400 ("Menu item not found: " +:+ OrderItem.menu_item_id it)) \/
      (e2 = OverflowError /\
       exists it, it ∈ order_items /\ float_of_int (OrderItem.quantity it) = None)).
    { induction order_items as [|it rest IH]; intros total0 Ht0; [discriminate|].
      rewrite total_loop_cons in Ht0.
      destruct (prices !! OrderItem.menu_item_id it) as [p|] eqn:Hlk.
      - destruct (float_of_int (OrderItem.quantity it)) as [q|] eqn:Hq.
        + destruct (IH _ Ht0) as [(it' & Hin & Hnone & He)|(He & it' & Hin & Hnone)].
          * left. exists it'. split; [by apply elem_of_cons; right | done].
          * right. split; [done|]. exists it'. split; [by apply elem_of_cons; right | done].
        + injection Ht0 as <-. right. split; [done|]. exists it.
          split; [by apply elem_of_cons; left | done].
      - injection Ht0 as <-. left. exists it.
        split; [by apply elem_of_cons; left | done]. }
    destruct (Hgen _ _ Ht) as [(it & Hin & Hnone & He)|Hov]; [|by right].
    left. exists it. split; [done|]. split; [|done].
    by apply (price_loop_absent _ _ _ Hp).
  - intros Hall.
    destruct (total_loop_items_ok prices (Order.items order) 0%float) as [acc Ht].
    { eapply Forall_impl; [exact Hall|]. intros it [Hin Hq]. split; [|done].
      apply (price_loop_dom _ _ _ _ Hp). by left. }
    by rewrite (create_order_ok _ _ _ _ Hp Ht).
Qed.

(** *** [list_orders] *)

(** X16: an order that [create_order] has stored is served by
    [list_orders] as the last document: the fields of the order as they were
    validated, the total and the identity of the response. A call with the
    limit [None] serves it after the orders that were served before; a call
    with no limit, where the default 20 applies, does so while the store held
    fewer than 20 orders, and from 20 orders on serves what it served
    before, without the new order. *)
Theorem create_order_listed read_many order db resp db' :
  reads_up_to_limit read_many ->
  create_order order db = (Ok resp, db') ->
  let served :=
    <["id" := VStr (OrderResponse.id resp)]>
      (<["total" := VFloat (OrderResponse.total resp)]> (Order_model_dump order)) in
  list_orders read_many (Some None) db' =
    list_orders read_many (Some None) db ++ [served] /\
  (length (get_documents "order" db) < 20 ->
   list_orders read_many None db' = list_orders read_many None db ++ [served]) /\
  (20 <= length (get_documents "order" db) ->
   list_orders read_many None db' = list_orders read_many None db /\
   length (list_orders read_many None db') = 20).
Proof.
  intros [Hall Hlim] Hc served. unfold list_orders. cbn [default].
  rewrite !Hall, !Hlim by lia.
  destruct (create_order_inv _ _ _ _ Hc) as (prices & total & _ & _ & Hr & ->).
  assert (Hs : serialize_doc
            (Document (mkObjectId (pretty (next_oid db)))
               (<["total" := VFloat (py_round2 total)]> (Order_model_dump order))) =
          served).
  { subst served. rewrite Hr. cbn [OrderResponse.id OrderResponse.total].
    by rewrite (serialize_doc_insert _ _ (stringify_Order_dump order (py_round2 total))). }
  rewrite get_create_same. change (Z.to_nat 20) with 20.
  split; [|split].
  - rewrite fmap_app. cbn [fmap list_fmap]. by rewrite Hs.
  - intros Hlt. rewrite take_app_ge by lia. rewrite (take_ge (get_documents _ db)) by lia.
    rewrite fmap_app. f_equal.
    destruct (20 - length (get_documents "order" db)) as [|k] eqn:Hk; [lia|].
    cbn [take fmap list_fmap]. rewrite take_nil. cbn [fmap list_fmap]. by rewrite Hs.
  - intros Hge. rewrite take_app_le by lia. split; [done|].
    rewrite length_fmap, length_take. lia.
Qed.

(** *** [test_database] *)

Ltac response_lookup :=
  unfold test_database; cbv zeta;
  repeat first
    [ rewrite lookup_insert_eq
    | rewrite lookup_insert_ne by done
    | rewrite lookup_singleton_eq ].

(** X17: the diagnostics list at most ten collection names: the first ten
    that the database names, in its order, and none when there is no database
    or a call on it raises. *)
Theorem test_database_collections db environ :
  exists names,
    test_database db environ !! "collections" = Some (VList (VStr <$> names)) /\
    length names <= 10 /\
    names =
      match db with
      | Some d =>
          match name_attr d, list_collection_names d with
          | Returns _, Returns all => take 10 all
          | _, _ => []
          end
      | None => []
      end.
Proof.
  destruct db as [[[name|msg] [all|msg']]|].
  - exists (take 10 all). split; [by response_lookup|]. split; [|done].
    rewrite length_take. lia.
  - exists []. split; [by response_lookup|]. split; [cbn; lia | done].
  - exists []. split; [by response_lookup|]. split; [cbn; lia | done].
  - exists []. split; [by response_lookup|]. split; [cbn; lia | done].
  - exists []. split; [by response_lookup|]. split; [cbn; lia | done].
Qed.

(** X18: what the diagnostics report under [database_url] and
    [database_name] depends on the environment alone, never on the database:
    "Set" exactly when the variable holds a non-empty string. *)
Theorem test_database_env db environ :
  test_database db environ !! "database_url" =
    Some (VStr (if getenv_set environ "DATABASE_URL" then "✅ Set" else "❌ Not Set")) /\
  test_database db environ !! "database_name" =
    Some (VStr (if getenv_set environ "DATABASE_NAME" then "✅ Set" else "❌ Not Set")) /\
  (forall key, getenv_set environ key = true <->
     exists s, environ !! key = Some s /\ s ≠ "").
Proof.
  split; [by response_lookup|]. split; [by response_lookup|].
  intros key. unfold getenv_set. destruct (environ !! key) as [s|]; split.
  - intros Hs. exists s. split; [done|]. by apply bool_decide_eq_true_1 in Hs.
  - intros (s' & [= <-] & Hs). by apply bool_decide_eq_true_2.
  - discriminate.
  - by intros (s' & Hs & _).
Qed.

(** X19: the diagnostics always hold the same six keys, and they report
    "Connected" exactly when there is a database whose [name] can be read,
    whether or not its collections can be listed. *)
Theorem test_database_connection db environ :
  dom (test_database db environ) =
    {[ "backend"; "database"; "database_url"; "database_name";
       "connection_status"; "collections" ]} /\
  test_database db environ !! "connection_status" =
    Some (VStr (match db with
                | Some d =>
                    match name_attr d with
                    | Returns _ => "Connected"
                    | Throws _ => "Not Connected"
                    end
                | None => "Not Connected"
                end)).
Proof.
  split.
  - unfold test_database. cbv zeta.
    destruct db as [[[name|msg] [all|msg']]|]; cbn [name_attr list_collection_names];
      rewrite ?dom_insert_L, dom_singleton_L; set_solver.
  - destruct db as [[[name|msg] [all|msg']]|]; by response_lookup.
Qed.

Lemma py_len_app a b : py_len (a +:+ b) = py_len a + py_len b.
Proof.
  induction a as [|c a IH]; [done|].
  change (String c a +:+ b) with (String c (a +:+ b)). cbn [py_len]. rewrite IH.
  by destruct (is_continuation c).
Qed.

Lemma py_len_take n : forall s, py_len (py_take n s) <= n.
Proof.
  intros s. revert n. induction s as [|c s IH]; intros n; cbn; [lia|].
  destruct (is_continuation c) eqn:Hc.
  - cbn. rewrite Hc. apply IH.
  - destruct n as [|k]; cbn; [lia|]. rewrite Hc. specialize (IH k). lia.
Qed.

(** X20: the status line under [database] is at most 75 characters long,
    however long the message of the exception it reports. *)
Theorem test_database_status_line db environ :
  exists line,
    test_database db environ !! "database" = Some (VStr line) /\
    py_len line <= 75.
Proof.
  destruct db as [[[name|msg] [all|msg']]|]; eexists;
    (split; [by response_lookup|]).
  - vm_compute. lia.
  - rewrite py_len_app. pose proof (py_len_take 50 msg') as Hd.
    change (py_len "⚠️  Connected but Error: ") with 25. lia.
  - rewrite py_len_app. pose proof (py_len_take 50 msg) as Hd.
    change (py_len "❌ Error: ") with 9. lia.
  - rewrite py_len_app. pose proof (py_len_take 50 msg) as Hd.
    change (py_len "❌ Error: ") with 9. lia.
  - vm_compute. lia.
Qed.

(** *** The schemas [User] and [Product] *)

Lemma validate_age_inv v a :
  validate_age v = Ok a ->
  match a with
  | Some z => (0 <= z <= 120)%Z
  | None => True
  end.
Proof.
  intros Hv. destruct a as [z|]; [|done].
  assert (Hb : exists w0 w1, ge_int 0 w0 = Ok w1 /\ le_int 120 w1 = Ok z).
  { destruct v; try discriminate; unfold validate_age in Hv;
      apply bind_ok_inv in Hv as (w0 & _ & Hv);
      apply bind_ok_inv in Hv as (w1 & Hw1 & Hv);
      apply bind_ok_inv in Hv as (w2 & Hw2 & Hv); injection Hv as <-;
      by exists w0, w1. }
  destruct Hb as (w0 & w1 & Hge & Hle).
  unfold ge_int in Hge. destruct (0 <=? w0)%Z eqn:H0; [|discriminate]. injection Hge as <-.
  unfold le_int in Hle. destruct (w0 <=? 120)%Z eqn:H1; [|discriminate]. injection Hle as <-.
  lia.
Qed.

(** X21: a user that validation accepts has no age or an age from 0 to 120;
    without an [age] field the age is none; and in a body that is otherwise
    valid an integer age is accepted exactly when it lies from 0 to 120, both
    ends included. *)
Theorem validate_User_age body user :
  validate_User body = Ok user ->
  match User.age user with
  | Some z => (0 <= z <= 120)%Z
  | None => True
  end /\
  (body !! "age" = None -> User.age user = None) /\
  forall z,
    validate_User (<["age" := VInt z]> body) =
    if (0 <=? z)%Z && (z <=? 120)%Z
    then Ok (User.mk (User.name user) (User.email user) (User.address user) (Some z)
               (User.is_active user))
    else Raise RequestValidationError.
Proof.
  unfold validate_User. intros Hv.
  apply bind_ok_inv in Hv as (nm & Hnm & Hv). apply bind_ok_inv in Hv as (em & Hem & Hv).
  apply bind_ok_inv in Hv as (ad & Had & Hv). apply bind_ok_inv in Hv as (ag & Hag & Hv).
  apply bind_ok_inv in Hv as (ac & Hac & Hv). injection Hv as <-. cbn.
  split; [|split].
  - destruct (body !! "age") as [v|]; [by eapply validate_age_inv | by injection Hag as <-].
  - intros Hnone. rewrite Hnone in Hag. by injection Hag as <-.
  - intros z. rewrite lookup_insert_eq, !lookup_insert_ne by done.
    rewrite Hnm, Hem, Had, Hac. cbn. unfold ge_int, le_int.
    destruct (0 <=? z)%Z; [|done]. cbn. by destruct (z <=? 120)%Z.
Qed.

(** X22: a product body that validation accepts holds [title] and
    [category] as strings; the accepted price is not nan and not negative;
    without the fields, [in_stock] is true and [description] is none. *)
Theorem validate_Product_accepts body product :
  validate_Product body = Ok product ->
  body !! "title" = Some (VStr (Product.title product)) /\
  body !! "category" = Some (VStr (Product.category product)) /\
  is_nan (Product.price product) = false /\
  (Product.price product <? 0)%float = false /\
  (body !! "in_stock" = None -> Product.in_stock product = true) /\
  (body !! "description" = None -> Product.description product = None).
Proof.
  unfold validate_Product. intros Hv.
  apply bind_ok_inv in Hv as (tt & Htt & Hv). apply bind_ok_inv in Hv as (ds & Hds & Hv).
  apply bind_ok_inv in Hv as (pr & Hpr & Hv). apply bind_ok_inv in Hv as (ct & Hct & Hv).
  apply bind_ok_inv in Hv as (st & Hst & Hv). injection Hv as <-. cbn.
  apply bind_ok_inv in Hpr as (f & _ & Hge). apply ge_float_inv in Hge as [-> Hge].
  destruct (ge_zero_sound f Hge) as [Hnan Hneg].
  split; [by apply validate_str_inv|]. split; [by apply validate_str_inv|].
  split; [done|]. split; [done|].
  split; intros Hnone; rewrite Hnone in *.
  - by apply with_default_absent in Hst.
  - by apply with_default_absent in Hds.
Qed.

(** *** More on the two loops of [create_order] *)

Lemma price_loop_app docs1 : forall docs2 acc,
  price_loop (docs1 ++ docs2) acc =
  match price_loop docs1 acc with
  | Ok mid => price_loop docs2 mid
  | Raise e => Raise e
  end.
Proof.
  induction docs1 as [|m rest IH]; intros docs2 acc; [done|].
  cbn [app]. rewrite !price_loop_cons. destruct (doc_price m); [apply IH | done].
Qed.

Lemma price_loop_keeps menu_docs : forall acc prices id,
  price_loop menu_docs acc = Ok prices ->
  id ∉ menu_ids menu_docs ->
  prices !! id = acc !! id.
Proof.
  induction menu_docs as [|m rest IH]; intros acc prices id Hl Hid.
  - by injection Hl as <-.
  - rewrite price_loop_cons in Hl. destruct (doc_price m) as [p|e]; [|discriminate].
    unfold menu_ids, doc_ids in Hid. rewrite fmap_cons, not_elem_of_cons in Hid.
    destruct Hid as [Hne Hrest]. rewrite (IH _ _ id Hl Hrest).
    by rewrite lookup_insert_ne.
Qed.

(** X23: when several menu documents carry the same identity, the last of
    them decides the price that [create_order] uses for it. *)
Theorem price_loop_last_wins before m after prices :
  oid_str (_id m) ∉ menu_ids after ->
  price_loop (before ++ m :: after) ∅ = Ok prices ->
  exists p, doc_price m = Ok p /\ prices !! oid_str (_id m) = Some p.
Proof.
  intros Hlast Hl. rewrite price_loop_app in Hl.
  destruct (price_loop before ∅) as [mid|e]; [|discriminate].
  rewrite price_loop_cons in Hl. destruct (doc_price m) as [p|e]; [|discriminate].
  exists p. split; [done|].
  rewrite (price_loop_keeps _ _ _ _ Hl Hlast). by rewrite lookup_insert_eq.
Qed.

(** X24: the running total reads the price mapping only at the references
    of the order: two mappings that agree there give the same total, or the
    same exception. *)
Theorem total_loop_reads_referenced prices1 prices2 order_items total :
  Forall (fun it => prices1 !! OrderItem.menu_item_id it =
                    prices2 !! OrderItem.menu_item_id it) order_items ->
  total_loop prices1 order_items total = total_loop prices2 order_items total.
Proof.
  revert total. induction order_items as [|it rest IH]; intros total Hall; [done|].
  apply Forall_cons in Hall as [Hit Hall]. rewrite !total_loop_cons, Hit.
  destruct (prices2 !! OrderItem.menu_item_id it); [|done].
  destruct (float_of_int (OrderItem.quantity it)); [by apply IH | done].
Qed.

Lemma create_order_not_validation order db db' :
  create_order order db ≠ (Raise RequestValidationError, db').
Proof.
  unfold create_order.
  destruct (price_loop (get_documents "menuitem" db) ∅) as [prices|e1] eqn:Hp.
  - destruct (total_loop prices (Order.items order) 0%float) as [total|e2] eqn:Ht;
      [discriminate|].
    intros [= -> _].
    by destruct (total_loop_raise_inv _ _ _ _ Ht) as [?|(it & _ & _ & ?)].
  - intros [= -> _]. destruct (price_loop_raise_inv _ _ _ Hp) as (m & _ & Hm).
    by destruct (py_float_raise_inv _ _ Hm) as [?|[?|?]].
Qed.

(** X25: [POST /orders] answers the validation error exactly when the body
    fails the [Order] schema, and then the store is as it was; a body that
    passes is handed to [create_order], which never raises that error. *)
Theorem post_orders_validation_iff body db :
  ((post_orders body db).1 = Raise RequestValidationError <->
   forall order, validate_Order body ≠ Ok order) /\
  ((post_orders body db).1 = Raise RequestValidationError -> (post_orders body db).2 = db) /\
  (forall order, validate_Order body = Ok order ->
     post_orders body db = create_order order db).
Proof.
  split; [split|split].
  - unfold post_orders. destruct (validate_Order body) as [order|e] eqn:Hv; [|done].
    intros Hr. exfalso. destruct (create_order order db) as [r db'] eqn:Hc.
    cbn in Hr. subst r. by apply (create_order_not_validation order db db').
  - intros Hno. by rewrite (post_orders_refused body db Hno).
  - unfold post_orders. destruct (validate_Order body) as [order|e] eqn:Hv; [|done].
    intros Hr. exfalso. destruct (create_order order db) as [r db'] eqn:Hc.
    cbn in Hr. subst r. by apply (create_order_not_validation order db db').
  - intros order Hv. unfold post_orders. by rewrite Hv.
Qed.

End Coverage.

(** ** The properties at concrete inputs *)

#[local] Existing Instance no_coercion.

(** The scenario of the spec: pizza at 10.99 twice and tea at 3.50 once make
    25.48. *)
Example scenario_total :
  (create_order two_pizzas_one_tea seeded_db).1 = Ok (OrderResponse.mk "4" 25.48 "pending").
Proof. vm_compute. reflexivity. Qed.

Lemma seeded_ids_distinct : NoDup (menu_ids (get_documents "menuitem" seeded_db)).
Proof. compute_done. Defined.

Lemma seeded_priced : menu_priced (get_documents "menuitem" seeded_db).
Proof. unfold menu_priced. compute_done. Defined.

(** C1, at the scenario of the spec. *)
Lemma create_order_total_witness :
  exists total resp db',
    spec_total (get_documents "menuitem" seeded_db) (Order.items two_pizzas_one_tea) =
      Some total /\
    create_order two_pizzas_one_tea seeded_db = (Ok resp, db') /\
    OrderResponse.total resp = total /\
    get_documents "order" db' =
      get_documents "order" seeded_db ++
      [Document (mkObjectId (OrderResponse.id resp))
         (<["total" := VFloat total]> (Order_model_dump two_pizzas_one_tea))].
Proof.
  apply (create_order_total two_pizzas_one_tea seeded_db).
  - exact seeded_ids_distinct.
  - exact seeded_priced.
  - compute_done.
  - compute_done.
Defined.

(** C1, as stated, fails: every item of the order references a menu item of
    the catalog, and [create_order] raises OverflowError on the quantity
    2^1024 and persists nothing. *)
Lemma huge_quantity_overflows :
  NoDup (menu_ids (get_documents "menuitem" seeded_db)) /\
  menu_priced (get_documents "menuitem" seeded_db) /\
  Forall (fun it => OrderItem.menu_item_id it ∈ menu_ids (get_documents "menuitem" seeded_db))
    (Order.items huge_quantity) /\
  create_order huge_quantity seeded_db = (Raise OverflowError, seeded_db).
Proof.
  split; [compute_done|]. split; [unfold menu_priced; compute_done|].
  split; [compute_done | vm_compute; reflexivity].
Qed.

(** C2, at one pizza followed by an unknown reference. *)
Lemma create_order_missing_reference_witness :
  create_order pizza_then_unknown seeded_db =
  (Raise (HTTPException 400 "Menu item not found: unknown-id"), seeded_db).
Proof.
  refine (proj2 (create_order_missing_reference pizza_then_unknown seeded_db
             [OrderItem.mk "0" 1] (OrderItem.mk "unknown-id" 1) [] eq_refl _ _)
            seeded_priced _); compute_done.
Defined.

(** C2, as stated, fails: the order holds a reference that the catalog does
    not know, and [create_order] raises OverflowError (a server error) on the
    line before it, not the HTTP 400. *)
Lemma huge_then_unknown_overflows :
  menu_priced (get_documents "menuitem" seeded_db) /\
  Exists (fun it => OrderItem.menu_item_id it ∉ menu_ids (get_documents "menuitem" seeded_db))
    (Order.items huge_then_unknown) /\
  create_order huge_then_unknown seeded_db = (Raise OverflowError, seeded_db) /\
  http_status OverflowError = Some 500%Z.
Proof.
  split; [unfold menu_priced; compute_done|].
  split; [|split; [vm_compute; reflexivity | reflexivity]].
  apply Exists_cons_tl, Exists_cons_hd. compute_done.
Qed.

Lemma one_espresso_created :
  create_order one_espresso eighth_db =
  (Ok (OrderResponse.mk "1" 0.12 "pending"), (create_order one_espresso eighth_db).2).
Proof. vm_compute. reflexivity. Defined.

(** C3, at one espresso: the answered total is [round] of the plain sum. *)
Lemma create_order_rounds_once_witness :
  exists amounts,
    mapM (line_amount {[ "0" := 0.125%float ]}) (Order.items one_espresso) = Some amounts /\
    0.12%float = py_round2 (float_sum amounts).
Proof.
  destruct (create_order_rounds_once one_espresso eighth_db _ _ one_espresso_created)
    as (prices & amounts & stored & Hp & Hm & Ht & _).
  exists amounts. split; [|exact Ht].
  vm_compute in Hp. injection Hp as <-. exact Hm.
Defined.

(** C3, as stated, fails: the sum of the order is 0.125, an exact tie between
    0.12 and 0.13; half-up rounding gives 0.13 and [create_order] answers
    0.12. *)
Lemma espresso_total_rounds_to_even :
  total_loop {[ "0" := 0.125%float ]} (Order.items one_espresso) 0%float = Ok 0.125%float /\
  (create_order one_espresso eighth_db).1 = Ok (OrderResponse.mk "1" 0.12 "pending") /\
  half_up_round2 0.125 = 0.13%float /\
  (0.12 =? 0.13)%float = false.
Proof. repeat split; vm_compute; reflexivity. Qed.

Lemma tea_bodies_same_but_total : same_but_total tea_body_with_total tea_body.
Proof. intros k Hk. unfold tea_body_with_total. by rewrite lookup_insert_ne. Defined.

(** C4, at an order for one tea with and without a ["total"] of 0.01. *)
Lemma post_orders_ignores_total_witness :
  post_orders tea_body_with_total seeded_db = post_orders tea_body seeded_db.
Proof.
  exact (proj1 (post_orders_ignores_total tea_body_with_total tea_body seeded_db
                  tea_bodies_same_but_total)).
Defined.

Example tea_total_is_computed :
  (post_orders tea_body_with_total seeded_db).1 = Ok (OrderResponse.mk "4" 3.5 "pending").
Proof. vm_compute. reflexivity. Qed.



(** C6, at the empty store. *)
Lemma list_menu_seeds_once_witness :
  exists served db',
    list_menu empty_db = (served, db') /\
    length served = 4 /\
    fields <$> get_documents "menuitem" db' = MenuItem_model_dump <$> seed_items /\
    list_menu db' = (served, db').
Proof. apply (list_menu_seeds_once empty_db). reflexivity. Defined.

Lemma eighth_body_valid :
  validate_MenuItem eighth_body = Ok (MenuItem.mk "Espresso" None 0.125 "Drinks" None true).
Proof. vm_compute. reflexivity. Defined.

(** C7, at the espresso with the price replaced. *)
Lemma create_menu_item_price_bound_witness :
  post_menu (<["price" := VInt (-1)]> eighth_body) empty_db =
    (Raise RequestValidationError, empty_db) /\
  exists db',
    post_menu (<["price" := VInt 0]> eighth_body) empty_db = (Ok "0", db') /\
    get_documents "menuitem" db' =
      [Document (mkObjectId "0")
         (MenuItem_model_dump (MenuItem.mk "Espresso" None 0 "Drinks" None true))].
Proof.
  destruct (create_menu_item_price_bound eighth_body empty_db _ eighth_body_valid)
    as (Hneg & _ & Hzero).
  split; [exact Hneg|]. exact (Hzero (VInt 0) (or_introl eq_refl)).
Defined.

Lemma scenario_created :
  create_order two_pizzas_one_tea seeded_db =
  (Ok (OrderResponse.mk "4" 25.48 "pending"), (create_order two_pizzas_one_tea seeded_db).2).
Proof. vm_compute. reflexivity. Defined.

(** C8, at the scenario of the spec. *)
Lemma create_order_response_witness :
  exists stored,
    get_documents "order" (create_order two_pizzas_one_tea seeded_db).2 = [stored] /\
    oid_str (_id stored) = "4" /\
    fields stored !! "total" = Some (VFloat 25.48) /\
    fields stored !! "status" = Some (VStr "pending").
Proof.
  destruct (create_order_response two_pizzas_one_tea seeded_db _ _ scenario_created)
    as (stored & prices & total & Hdocs & _ & _ & Hresp & Htotal & Hstatus).
  exists stored. split; [exact Hdocs|]. split; [|split; [exact Htotal | exact Hstatus]].
  by injection Hresp as <- _.
Defined.

Lemma tea_body_valid :
  validate_Order tea_body = Ok (customer [OrderItem.mk "3" 1]).
Proof. vm_compute. reflexivity. Defined.

(** C9, at the order for tea with its items taken away. *)
Lemma create_order_accepts_no_items_witness :
  exists db',
    post_orders (<["items" := VList []]> tea_body) seeded_db =
      (Ok (OrderResponse.mk "4" 0 "pending"), db') /\
    get_documents "order" db' =
      [Document (mkObjectId "4") (<["total" := VFloat 0]> (Order_model_dump (customer [])))].
Proof.
  exact (create_order_accepts_no_items tea_body seeded_db _ tea_body_valid seeded_priced).
Defined.

(** C10, at a menu whose only document has no price. *)
Lemma missing_price_counts_as_zero_witness :
  doc_price water = Ok 0%float /\
  (create_order one_espresso priceless_db).1 = Ok (OrderResponse.mk "1" 0 "pending").
Proof.
  split.
  - refine (proj1 (missing_price_counts_as_zero [water] water {[ "0" := 0%float ]} _ _ _ _));
      [compute_done | set_solver | reflexivity | vm_compute; reflexivity].
  - vm_compute. reflexivity.
Defined.

(** C10, as stated, fails: the only menu document has no price, the order
    line references it, and [create_order] raises OverflowError on the
    quantity 2^1024 and persists nothing. *)
Lemma priceless_huge_quantity_overflows :
  fields water !! "price" = None /\
  get_documents "menuitem" priceless_db = [water] /\
  OrderItem.menu_item_id <$> Order.items huge_quantity = [oid_str (_id water)] /\
  create_order huge_quantity priceless_db = (Raise OverflowError, priceless_db).
Proof. repeat split; vm_compute; reflexivity. Qed.

(** ** More of the code, at concrete inputs *)

Lemma pizza_then_unknown_raises :
  create_order pizza_then_unknown seeded_db =
  (Raise (HTTPException 400 "Menu item not found: unknown-id"), seeded_db).
Proof. vm_compute. reflexivity. Defined.

(** X6, at one pizza followed by an unknown reference. *)
Lemma create_order_failures_witness :
  exists it,
    it ∈ Order.items pizza_then_unknown /\
    (OrderItem.menu_item_id it ∉ menu_ids (get_documents "menuitem" seeded_db)) /\
    HTTPException 400 "Menu item not found: unknown-id" =
    HTTPException 400 ("Menu item not found: " +:+ OrderItem.menu_item_id it).
Proof.
  destruct (create_order_failures pizza_then_unknown seeded_db _ _ pizza_then_unknown_raises)
    as [_ [Hit|[Hov|(m & _ & _ & [Hx|[Hx|Hx]])]]];
    [exact Hit | discriminate..].
Defined.

(** X9, at the espresso body. *)
Lemma validate_MenuItem_accepts_witness :
  eighth_body !! "name" = Some (VStr "Espresso") /\
  is_nan 0.125 = false /\
  (0.125 <? 0)%float = false.
Proof.
  destruct (validate_MenuItem_accepts eighth_body _ eighth_body_valid)
    as (Hname & _ & Hnan & Hneg & _).
  split; [exact Hname|]. split; [exact Hnan | exact Hneg].
Defined.

(** X10, at the order body for one tea. *)
Lemma validate_Order_items_witness :
  exists l,
    tea_body !! "items" = Some (VList l) /\
    Forall2 (fun v it =>
               exists d, v = VDict d /\
                 d !! "menu_item_id" = Some (VStr (OrderItem.menu_item_id it)) /\
                 (exists w, d !! "quantity" = Some w /\
                    validate_int w = Ok (OrderItem.quantity it)) /\
                 (1 <= OrderItem.quantity it)%Z) l [OrderItem.mk "3" 1].
Proof. exact (validate_Order_items tea_body _ tea_body_valid). Defined.

Lemma seeded_reachable : reachable seeded_db.
Proof. exact (reachable_list_menu empty_db reachable_empty). Defined.

(** X13, at the seeded store. *)
Lemma reachable_menu_nonneg_witness :
  Forall (fun m => exists p, fields m !! "price" = Some (VFloat p) /\
                             is_nan p = false /\ (p <? 0)%float = false)
    (get_documents "menuitem" seeded_db).
Proof. exact (reachable_menu_nonneg seeded_db seeded_reachable). Defined.

(** X14, at the scenario of the spec on the seeded store. *)
Lemma reachable_create_order_witness :
  is_ok (create_order two_pizzas_one_tea seeded_db).1 = true.
Proof.
  apply (proj2 (reachable_create_order seeded_db two_pizzas_one_tea seeded_reachable)).
  compute_done.
Defined.

Lemma read_front_reads : reads_up_to_limit read_front.
Proof.
  split; [done|]. intros c n db Hn. unfold read_front.
  by rewrite (proj2 (Z.ltb_lt 0 n) Hn).
Defined.

(** X16, at the scenario of the spec. *)
Lemma create_order_listed_witness :
  list_orders read_front (Some None) (create_order two_pizzas_one_tea seeded_db).2 =
    list_orders read_front (Some None) seeded_db ++
    [<["id" := VStr "4"]>
       (<["total" := VFloat 25.48]> (Order_model_dump two_pizzas_one_tea))] /\
  list_orders read_front None (create_order two_pizzas_one_tea seeded_db).2 =
    list_orders read_front None seeded_db ++
    [<["id" := VStr "4"]>
       (<["total" := VFloat 25.48]> (Order_model_dump two_pizzas_one_tea))].
Proof.
  pose proof (create_order_listed read_front two_pizzas_one_tea seeded_db _ _
                read_front_reads scenario_created) as (Hnone & Hdefault & _).
  split; [exact Hnone|]. apply Hdefault. vm_compute. lia.
Defined.

Lemma ada_body_valid :
  validate_User ada_body = Ok (User.mk "Ada" "ada@example.org" "1 Main Street" None true).
Proof. vm_compute. reflexivity. Defined.

(** X21, at a user body with the ages 120 and 121. *)
Lemma validate_User_age_witness :
  validate_User (<["age" := VInt 120]> ada_body) =
    Ok (User.mk "Ada" "ada@example.org" "1 Main Street" (Some 120%Z) true) /\
  validate_User (<["age" := VInt 121]> ada_body) = Raise RequestValidationError.
Proof.
  destruct (validate_User_age ada_body _ ada_body_valid) as (_ & _ & Hage).
  split; [exact (Hage 120%Z) | exact (Hage 121%Z)].
Defined.

Lemma soap_body_valid :
  validate_Product soap_body = Ok (Product.mk "Soap" None 2.5 "Home" true).
Proof. vm_compute. reflexivity. Defined.

(** X22, at a product body with the price 2.5. *)
Lemma validate_Product_accepts_witness :
  soap_body !! "title" = Some (VStr "Soap") /\
  is_nan 2.5 = false /\
  (2.5 <? 0)%float = false.
Proof.
  destruct (validate_Product_accepts soap_body _ soap_body_valid)
    as (Htitle & _ & Hnan & Hneg & _).
  split; [exact Htitle|]. split; [exact Hnan | exact Hneg].
Defined.

(** The diagnostics keep the first ten of twelve collection names. *)
Example twelve_collections_listed :
  test_database (Some twelve_collections) ∅ !! "collections" =
  Some (VList (VStr <$> ["a"; "b"; "c"; "d"; "e"; "f"; "g"; "h"; "i"; "j"])).
Proof. vm_compute. reflexivity. Qed.

(** X23, at two documents for the identity "7". *)
Lemma price_loop_last_wins_witness :
  exists p, doc_price tea_now = Ok p /\ ({[ "7" := 4%float ]} : gmap string float) !! "7" = Some p.
Proof.
  refine (price_loop_last_wins [tea_then] tea_now [] {[ "7" := 4%float ]} _ _).
  - set_solver.
  - vm_compute. reflexivity.
Defined.

(** X24, at two pizzas and two mappings that differ on another item. *)
Lemma total_loop_reads_referenced_witness :
  total_loop prices_a [OrderItem.mk "0" 2] 0%float =
  total_loop prices_b [OrderItem.mk "0" 2] 0%float.
Proof.
  apply (total_loop_reads_referenced prices_a prices_b [OrderItem.mk "0" 2] 0%float).
  repeat constructor.
Defined.
